(** * SmartSpend CSV import processor ([process_csv.py])

    A shallow embedding of the script's four functions
    ([categorize_transaction], [normalize_date], [extract_merchant],
    [process_csv]) and of its command-line entry point, followed by the
    properties the design document states about them.

    Conventions of the model.
    - A Python [str] is a Rocq [string].  The model is that of ASCII
      text: on it [lower], [capitalize], [split], [\d] and [\s] act as
      below.  Beyond ASCII Python changes case by the tables of Unicode,
      sometimes into more characters than it was given, and knows more
      digits and more white space; none of that is modelled, and what
      depends on the case mappings keeping the length of a text, or on
      their being idempotent, is stated for ASCII text ([is_ascii]).
    - A Python [float] is a binary64 value, [spec_float] of the Standard
      Library, with [SFabs], [SFopp] and [SFltb] for [abs], unary minus
      and [<].
    - A raised exception is the left summand of a [sum]; [try]/[except]
      is a [match] on it.
    - What the script calls but does not define (pandas' [read_csv], the
      built-ins [float] and [repr], the text of exception messages) is a
      method of the [Runtime] class. *)

From Stdlib Require Import Bool Arith NArith ZArith Lia List.
From Stdlib Require Import Strings.Ascii Strings.String DecimalString.
From Stdlib Require Import Floats.SpecFloat.
Import ListNotations.

Local Open Scope string_scope.
Local Open Scope list_scope.

(** ** Python string built-ins used by the script *)

Module PyStr.
Local Open Scope Z_scope.

Definition code (c : ascii) : N := N_of_ascii c.

(** [lo <= c <= hi] on character codes. *)
Definition in_range (lo hi c : ascii) : bool :=
  (code lo <=? code c)%N && (code c <=? code hi)%N.

Definition is_upper (c : ascii) : bool := in_range "A" "Z" c.
Definition is_lower (c : ascii) : bool := in_range "a" "z" c.

(** [\d] and [str.isdigit] on ASCII. *)
Definition is_digit (c : ascii) : bool := in_range "0" "9" c.

(** [\s], [str.isspace]: tab, LF, VT, FF, CR, the separators FS GS RS US
    (codes 28 to 31) and the blank. *)
Definition is_space (c : ascii) : bool :=
  in_range "009" "013" c || in_range "028" "031" c || Ascii.eqb c " ".

Definition lower_char (c : ascii) : ascii :=
  if is_upper c then ascii_of_N (code c + 32) else c.

Definition upper_char (c : ascii) : ascii :=
  if is_lower c then ascii_of_N (code c - 32) else c.

Fixpoint map_chars (f : ascii -> ascii) (s : string) : string :=
  match s with
  | EmptyString => EmptyString
  | String c s' => String (f c) (map_chars f s')
  end.

(** [s.lower()], on ASCII text. *)
Definition lower (s : string) : string := map_chars lower_char s.

(** [s.capitalize()], on ASCII text: first character upper case, the rest
    lower case. *)
Definition capitalize (s : string) : string :=
  match s with
  | EmptyString => EmptyString
  | String c s' => String (upper_char c) (lower s')
  end.

(** [k in s]: [k] occurs in [s] as a contiguous substring. *)
Fixpoint contains (s k : string) : bool :=
  String.prefix k s ||
  match s with
  | EmptyString => false
  | String _ s' => contains s' k
  end.

(** [s.replace(c, new)] for a one-character [c]. *)
Fixpoint replace_char (c : ascii) (new : string) (s : string) : string :=
  match s with
  | EmptyString => EmptyString
  | String x s' =>
      if Ascii.eqb x c then new ++ replace_char c new s'
      else String x (replace_char c new s')
  end.

Fixpoint lstrip (s : string) : string :=
  match s with
  | EmptyString => EmptyString
  | String c s' => if is_space c then lstrip s' else s
  end.

Fixpoint rstrip (s : string) : string :=
  match s with
  | EmptyString => EmptyString
  | String c s' =>
      match rstrip s' with
      | EmptyString => if is_space c then EmptyString else String c EmptyString
      | r => String c r
      end
  end.

(** [s.strip()] *)
Definition strip (s : string) : string := rstrip (lstrip s).

(** [s.split()]: the maximal runs of characters that are not white space.
    [cur] is the word being read, in reverse. *)
Fixpoint rev_string (acc s : string) : string :=
  match s with
  | EmptyString => acc
  | String c s' => rev_string (String c acc) s'
  end.

Fixpoint split_go (cur : string) (s : string) : list string :=
  match s with
  | EmptyString =>
      match cur with
      | EmptyString => []
      | _ => [rev_string EmptyString cur]
      end
  | String c s' =>
      if is_space c then
        match cur with
        | EmptyString => split_go EmptyString s'
        | _ => rev_string EmptyString cur :: split_go EmptyString s'
        end
      else split_go (String c cur) s'
  end.

Definition split (s : string) : list string := split_go EmptyString s.

(** [sep.join(words)] *)
Fixpoint join (sep : string) (words : list string) : string :=
  match words with
  | [] => EmptyString
  | [w] => w
  | w :: ws => w ++ sep ++ join sep ws
  end.

(** [int(s)] on a string of decimal digits, white space around them
    ignored; the directives of [strptime] only ever pass such strings. *)
Definition digit_value (c : ascii) : Z := Z.of_N (code c - code "0").

Fixpoint int_digits (acc : Z) (s : string) : Z :=
  match s with
  | EmptyString => acc
  | String c s' => int_digits (10 * acc + digit_value c) s'
  end.

Definition int (s : string) : Z := int_digits 0 (strip s).

End PyStr.

Local Open Scope Z_scope.

(** ** The categorizer *)

(** A Python [dict] literal iterates in insertion order, so the table is an
    association list in the order of the source. *)
Definition categories : list (string * list string) :=
  [ ("groceries", ["grocery"; "market"; "food"; "supermarket"; "trader"; "whole foods"]);
    ("dining", ["restaurant"; "cafe"; "coffee"; "starbucks"; "mcdonalds"; "takeout"]);
    ("transportation", ["uber"; "lyft"; "taxi"; "transport"; "transit"; "train"; "metro"]);
    ("utilities", ["electric"; "water"; "gas"; "internet"; "phone"; "bill"]);
    ("entertainment", ["netflix"; "spotify"; "movie"; "theater"; "hulu"; "disney"]);
    ("shopping", ["amazon"; "store"; "shop"; "target"; "walmart"; "purchase"]);
    ("housing", ["rent"; "mortgage"; "home"; "hoa"; "property"]);
    ("income", []) ].

Definition float0 : spec_float := S754_zero false.

(** [amount > 0] and [amount < 0] *)
Definition gt0 (amount : spec_float) : bool := SFltb float0 amount.
Definition lt0 (amount : spec_float) : bool := SFltb amount float0.

(** The inner loop: [for keyword in keywords: if keyword in description]. *)
Fixpoint any_keyword (description : string) (keywords : list string) : bool :=
  match keywords with
  | [] => false
  | keyword :: rest =>
      if PyStr.contains description keyword then true
      else any_keyword description rest
  end.

(** The outer loop over [categories.items()], falling through to
    ['uncategorized']. *)
Fixpoint scan_categories (table : list (string * list string))
         (description : string) : string :=
  match table with
  | [] => "uncategorized"
  | (category, keywords) :: rest =>
      if any_keyword description keywords then category
      else scan_categories rest description
  end.

(** The body of [categorize_transaction] with the table as an argument. *)
Definition categorize_with (table : list (string * list string))
           (description : string) (amount : spec_float) : string :=
  let description := PyStr.lower description in
  if gt0 amount then "income"
  else scan_categories table description.

Definition categorize_transaction (description : string) (amount : spec_float)
  : string :=
  categorize_with categories description amount.

(** ** [datetime.strptime] and [strftime] for the formats of the script *)

Module Strptime.
Import PyStr.
Local Open Scope Z_scope.

Inductive directive := Dir_d | Dir_m | Dir_y | Dir_Y.

(** A compiled format: directives and literal characters. *)
Inductive item :=
| Directive (d : directive)
| Literal (c : ascii).

Definition directive_of (c : ascii) : option directive :=
  if Ascii.eqb c "d" then Some Dir_d
  else if Ascii.eqb c "m" then Some Dir_m
  else if Ascii.eqb c "y" then Some Dir_y
  else if Ascii.eqb c "Y" then Some Dir_Y
  else None.

(** The format string read left to right; a percent sign takes the next
    character as its directive.  Only what the formats of the script hold
    is modelled: the four directives and literals such as [/] and [-],
    which stand for themselves.  Any other directive is answered as an
    unknown one is, with [ValueError]. *)
Fixpoint compile (fmt : string) : option (list item) :=
  match fmt with
  | EmptyString => Some []
  | String "%" EmptyString => None
  | String "%" (String x rest) =>
      match directive_of x, compile rest with
      | Some d, Some items => Some (Directive d :: items)
      | _, _ => None
      end
  | String c rest =>
      match compile rest with
      | Some items => Some (Literal c :: items)
      | None => None
      end
  end.

(** A character class of the regular expression of a directive. *)
Definition charset := ascii -> bool.
Definition one (c : ascii) : charset := Ascii.eqb c.

(** The alternatives of each directive, in the order the library's
    regular expression lists them:
    [%d] is [3[0-1]|[1-2]\d|0[1-9]|[1-9]| [1-9]],
    [%m] is [1[0-2]|0[1-9]|[1-9]], [%y] is [\d\d], [%Y] is [\d\d\d\d]. *)
Definition alternatives (d : directive) : list (list charset) :=
  match d with
  | Dir_d => [ [one "3"; in_range "0" "1"];
               [in_range "1" "2"; is_digit];
               [one "0"; in_range "1" "9"];
               [in_range "1" "9"];
               [one " "; in_range "1" "9"] ]
  | Dir_m => [ [one "1"; in_range "0" "2"];
               [one "0"; in_range "1" "9"];
               [in_range "1" "9"] ]
  | Dir_y => [ [is_digit; is_digit] ]
  | Dir_Y => [ [is_digit; is_digit; is_digit; is_digit] ]
  end.

(** One alternative against the front of [s]: the text it consumed and
    what is left. *)
Fixpoint match_seq (cs : list charset) (s : string) : option (string * string) :=
  match cs with
  | [] => Some (EmptyString, s)
  | p :: cs' =>
      match s with
      | EmptyString => None
      | String c s' =>
          if p c then
            match match_seq cs' s' with
            | Some (t, r) => Some (String c t, r)
            | None => None
            end
          else None
      end
  end.

Fixpoint match_alts (alts : list (list charset)) (s : string)
  : list (string * string) :=
  match alts with
  | [] => []
  | a :: alts' =>
      match match_seq a s with
      | Some tr => tr :: match_alts alts' s
      | None => match_alts alts' s
      end
  end.

(** The groups found so far; [strptime] starts from no year, month 1 and
    day 1. *)
Record found := { f_year : option Z; f_month : Z; f_day : Z }.

Definition found0 : found := {| f_year := None; f_month := 1; f_day := 1 |}.

(** What [strptime] does with the text of a group.  A two-digit year up
    to 68 is in the 2000s, above it in the 1900s. *)
Definition record_group (d : directive) (text : string) (f : found) : found :=
  match d with
  | Dir_d => {| f_year := f_year f; f_month := f_month f; f_day := int text |}
  | Dir_m => {| f_year := f_year f; f_month := int text; f_day := f_day f |}
  | Dir_y =>
      let y := int text in
      {| f_year := Some (if y <=? 68 then y + 2000 else y + 1900);
         f_month := f_month f; f_day := f_day f |}
  | Dir_Y => {| f_year := Some (int text); f_month := f_month f; f_day := f_day f |}
  end.

(** Backtracking match of the compiled format against the front of [s]:
    every way to match, in the order the regular-expression engine
    tries them, each with the unread rest.  [re.match] takes the first
    one. *)
Fixpoint regex_match (items : list item) (s : string) (f : found)
  : list (found * string) :=
  match items with
  | [] => [(f, s)]
  | Literal c :: items' =>
      match s with
      | EmptyString => []
      | String x s' => if Ascii.eqb x c then regex_match items' s' f else []
      end
  | Directive d :: items' =>
      flat_map (fun tr => regex_match items' (snd tr) (record_group d (fst tr) f))
               (match_alts (alternatives d) s)
  end.

Record date := { year : Z; month : Z; day : Z }.

Definition is_leap (y : Z) : bool :=
  (y mod 4 =? 0) && (negb (y mod 100 =? 0) || (y mod 400 =? 0)).

Definition days_in_month (y m : Z) : Z :=
  match m with
  | 2 => if is_leap y then 29 else 28
  | 4 | 6 | 9 | 11 => 30
  | _ => 31
  end.

(** The checks of the [datetime] constructor; it raises [ValueError]
    when one fails. *)
Definition valid_date (y m d : Z) : bool :=
  (1 <=? y) && (y <=? 9999) && (1 <=? m) && (m <=? 12) &&
  (1 <=? d) && (d <=? days_in_month y m).

(** [datetime.strptime(date_str, fmt)]; [None] stands for [ValueError]
    (no match, unconverted data left, or no such calendar day). *)
Definition strptime (date_str fmt : string) : option date :=
  match compile fmt with
  | None => None
  | Some items =>
      match regex_match items date_str found0 with
      | [] => None
      | (f, rest) :: _ =>
          match rest with
          | String _ _ => None
          | EmptyString =>
              let y := match f_year f with Some y => y | None => 1900 end in
              if valid_date y (f_month f) (f_day f)
              then Some {| year := y; month := f_month f; day := f_day f |}
              else None
          end
      end
  end.

Definition digit_char (n : Z) : ascii := ascii_of_N (Z.to_N (48 + n mod 10)).

(** Zero-padded decimal of the given width. *)
Fixpoint zero_pad (width : nat) (n : Z) (acc : string) : string :=
  match width with
  | O => acc
  | S w => zero_pad w (n / 10) (String (digit_char n) acc)
  end.

(** The text [YYYY-MM-DD] of a date: the year on four digits, then month
    and day on two digits each. *)
Definition strftime_iso (dt : date) : string :=
  zero_pad 4%nat (year dt) EmptyString ++ "-" ++
  zero_pad 2%nat (month dt) EmptyString ++ "-" ++
  zero_pad 2%nat (day dt) EmptyString.

(** The year as the C library prints it for [%Y]: in decimal, with no
    leading zeros, so on fewer than four digits below 1000.  The year of
    a [datetime] is 1 to 9999. *)
Definition year_text (y : Z) : string :=
  if y <? 10 then zero_pad 1%nat y EmptyString
  else if y <? 100 then zero_pad 2%nat y EmptyString
  else if y <? 1000 then zero_pad 3%nat y EmptyString
  else zero_pad 4%nat y EmptyString.

(** [dt.strftime('%Y-%m-%d')]: the year as [%Y] prints it, then month and
    day on two digits each.  From the year 1000 on this is the text
    [YYYY-MM-DD]. *)
Definition strftime (dt : date) : string :=
  year_text (year dt) ++ "-" ++
  zero_pad 2%nat (month dt) EmptyString ++ "-" ++
  zero_pad 2%nat (day dt) EmptyString.

End Strptime.

(** ** The date normalizer *)

Definition date_formats : list string :=
  [ "%m/%d/%Y"; "%Y-%m-%d"; "%d/%m/%Y"; "%m-%d-%Y";
    "%d-%m-%Y"; "%m/%d/%y"; "%d/%m/%y"; "%Y/%m/%d" ].

(** The loop [for fmt in date_formats: try ... except ValueError: continue],
    then the fall-through [return date_str]. *)
Fixpoint try_formats (formats : list string) (date_str : string) : string :=
  match formats with
  | [] => date_str
  | fmt :: rest =>
      match Strptime.strptime date_str fmt with
      | Some dt => Strptime.strftime dt
      | None => try_formats rest date_str
      end
  end.

Definition normalize_date (date_str : string) : string :=
  try_formats date_formats date_str.

(** The shape [YYYY-MM-DD]: four digits, a dash, two digits, a dash, two
    digits. *)
Definition iso_shape (s : string) : bool :=
  match s with
  | String y3 (String y2 (String y1 (String y0 (String "-"
      (String m1 (String m0 (String "-" (String d1 (String d0 EmptyString))))))))) =>
      forallb PyStr.is_digit [y3; y2; y1; y0; m1; m0; d1; d0]
  | _ => false
  end.

(** ** The merchant extractor *)

Module Regex.
Import PyStr.

(** [re.sub(pattern, '', s)] for a pattern that never matches the empty
    string.  [match_len s] is the length of the match of the pattern at
    the front of [s], 0 when there is none.  The scan goes left to
    right: a match is dropped and the scan resumes right after it,
    otherwise one character is kept.  [skip] counts the characters of
    the current match still to drop. *)
Fixpoint sub_go (match_len : string -> nat) (skip : nat) (s : string) : string :=
  match s with
  | EmptyString => EmptyString
  | String c s' =>
      match skip with
      | S k => sub_go match_len k s'
      | O =>
          match match_len s with
          | O => String c (sub_go match_len O s')
          | S k => sub_go match_len k s'
          end
      end
  end.

Definition sub_delete (match_len : string -> nat) (s : string) : string :=
  sub_go match_len O s.

(** An alternation of literal phrases: the first phrase, in the order
    written, that the text starts with. *)
Fixpoint match_phrases (phrases : list string) (s : string) : nat :=
  match phrases with
  | [] => O
  | p :: rest =>
      if String.prefix p s then String.length p else match_phrases rest s
  end.

(** The length of the run of digits at the front of [s]. *)
Fixpoint digit_run (s : string) : nat :=
  match s with
  | EmptyString => O
  | String c s' => if is_digit c then S (digit_run s') else O
  end.

(** [\d{6,}]: greedy, so the whole run, provided it has six digits. *)
Definition match_long_number (s : string) : nat :=
  let n := digit_run s in
  if (6 <=? n)%nat then n else O.

(** [\d{2}/\d{2}] *)
Definition match_short_date (s : string) : nat :=
  match s with
  | String a (String b (String c (String d (String e _)))) =>
      if is_digit a && is_digit b && Ascii.eqb c "/" && is_digit d && is_digit e
      then 5%nat else O
  | _ => O
  end.

(** [re.sub(r'\s+', ' ', s)]: each run of white space becomes one blank.
    [in_run] tells that the previous character was white space. *)
Fixpoint collapse_spaces (in_run : bool) (s : string) : string :=
  match s with
  | EmptyString => EmptyString
  | String c s' =>
      if is_space c then
        if in_run then collapse_spaces true s'
        else String " " (collapse_spaces true s')
      else String c (collapse_spaces false s')
  end.

End Regex.

(** The alternation of the first [re.sub], in the order of the pattern. *)
Definition boilerplate : list string :=
  [ "payment to"; "payment from"; "purchase at"; "pos "; "txn*";
    "debit card "; "card purchase "; "ach "; "direct deposit " ].

(** The four clean-up steps.  The text is lower case already, so the flag
    [re.I] of the first substitution changes nothing on it. *)
Definition clean_description (description : string) : string :=
  let cleaned := Regex.sub_delete (Regex.match_phrases boilerplate)
                                  (PyStr.lower description) in
  let cleaned := Regex.sub_delete Regex.match_long_number cleaned in
  let cleaned := Regex.sub_delete Regex.match_short_date cleaned in
  PyStr.strip (Regex.collapse_spaces false cleaned).

Definition extract_merchant (description : string) : string :=
  let cleaned := clean_description description in
  let words := PyStr.split cleaned in
  match words with
  | [] => description
  | _ => PyStr.join " " (map PyStr.capitalize words)
  end.

(** [re.search]: the pattern matches at the front of some suffix of [s]. *)
Fixpoint search (match_len : string -> nat) (s : string) : bool :=
  negb (match_len s =? 0)%nat ||
  match s with
  | EmptyString => false
  | String _ s' => search match_len s'
  end.

(** The three kinds of noise the extractor removes, looked for in a text;
    the phrases without regard to case. *)
Definition has_long_number (s : string) : bool :=
  search Regex.match_long_number s.
Definition has_short_date (s : string) : bool :=
  search Regex.match_short_date s.
Definition has_boilerplate (s : string) : bool :=
  search (Regex.match_phrases boilerplate) (PyStr.lower s).

(** ** The data frame and the run-time environment *)

(** A cell of a row as [iterrows] hands it over: missing ([NaN], for which
    [pd.isna] holds and [str] gives [nan]), or present with the text
    [str] gives for it. *)
Inductive cell :=
| NaN
| Val (text : string).

(** What [read_csv] returns: the header labels and the rows, in file
    order.  A row shorter than the header is read as padded with [NaN]. *)
Record DataFrame := { columns : list string; rows : list (list cell) }.

(** [row[label]]: the cell under the label, or a [Series] of cells when
    several columns carry it. *)
Inductive value :=
| Scalar (c : cell)
| Series (cs : list cell).

(** The exceptions that can reach the handler of [process_csv]. *)
Inductive exn :=
| LoadError (message : string)        (* raised inside [read_csv] *)
| IndexError (i size : nat)           (* [df.columns[i]] past the end *)
| KeyError (label : string)           (* [row[label]], no such label *)
| FloatError (text : string)          (* [float(text)] rejects the text *)
| TruthError.                         (* truth value of a [Series] *)

(** Failure is the left summand. *)
Definition result (A : Type) : Type := exn + A.

Definition bind {A B : Type} (r : result A) (k : A -> result B) : result B :=
  match r with
  | inl e => inl e
  | inr a => k a
  end.

Notation "x <- r ;; k" := (bind r (fun x => k))
  (at level 61, r at next level, right associativity).

(** What the script uses and does not define. *)
Class Runtime := {
  (** [pd.read_csv(path)]: the frame, or the text of the exception. *)
  read_csv : string -> string + DataFrame;
  (** [float(text)]; [None] is [ValueError]. *)
  float_of_str : string -> option spec_float;
  (** [repr] of a finite float, as [json.dumps] prints it. *)
  float_repr : spec_float -> string;
  (** [str] of a [Series] of several cells. *)
  series_str : list cell -> string;
  (** [str(e)] of an exception. *)
  exn_str : exn -> string
}.

(** ** The row pipeline *)

Record transaction := {
  t_date : string;
  t_description : string;
  t_amount : spec_float;
  t_isExpense : bool;
  t_category : string;
  t_merchant : string;
  t_originalDescription : string
}.

(** The value [process_csv] returns: the list of transactions, or the
    dictionary with the single key [error]. *)
Inductive output :=
| Transactions (transactions : list transaction)
| Error (message : string).

(** [col.lower().replace(' ', '_')] *)
Definition normalize_column (col : string) : string :=
  PyStr.replace_char " " "_" (PyStr.lower col).

(** [df.columns[i]] *)
Definition column_at (cols : list string) (i : nat) : result string :=
  match nth_error cols i with
  | Some col => inr col
  | None => inl (IndexError i (List.length cols))
  end.

(** [next((col for col in df.columns if p(col)), default)] once
    [default] has its value. *)
Definition next (p : string -> bool) (cols : list string) (default : string)
  : string :=
  match filter p cols with
  | col :: _ => col
  | [] => default
  end.

Definition is_date_col (col : string) : bool := PyStr.contains col "date".
Definition is_desc_col (col : string) : bool :=
  PyStr.contains col "desc" || PyStr.contains col "narr".
Definition is_amount_col (col : string) : bool :=
  PyStr.contains col "amount" || PyStr.contains col "sum".

Record roles := { date_col : string; desc_col : string; amount_col : string }.

(** Lines 98 to 100.  The default [df.columns[i]] is an argument of
    [next], so it is evaluated, and may raise, before any column name is
    looked at. *)
Definition resolve_columns (cols : list string) : result roles :=
  d0 <- column_at cols 0 ;;
  let date_col := next is_date_col cols d0 in
  d1 <- column_at cols 1 ;;
  let desc_col := next is_desc_col cols d1 in
  d2 <- column_at cols 2 ;;
  let amount_col := next is_amount_col cols d2 in
  inr {| date_col := date_col; desc_col := desc_col; amount_col := amount_col |}.

(** The cells of [row] under [label], left to right. *)
Fixpoint cells_at (cols : list string) (row : list cell) (label : string)
  : list cell :=
  match cols with
  | [] => []
  | col :: cols' =>
      let rest := cells_at cols' (tl row) label in
      if String.eqb col label then hd NaN row :: rest else rest
  end.

(** [row[label]] *)
Definition getitem (cols : list string) (row : list cell) (label : string)
  : result value :=
  match cells_at cols row label with
  | [] => inl (KeyError label)
  | [c] => inr (Scalar c)
  | cs => inr (Series cs)
  end.

(** [df.columns] after line 95. *)
Definition header (df : DataFrame) : list string :=
  map normalize_column (columns df).

(** [label in df.columns] *)
Definition has_column (cols : list string) (label : string) : bool :=
  existsb (String.eqb label) cols.

(** [.replace('$', '').replace(',', '')] *)
Definition strip_currency (text : string) : string :=
  PyStr.replace_char "," EmptyString (PyStr.replace_char "$" EmptyString text).

Section Pipeline.
Context {rt : Runtime}.

(** [str(v)] *)
Definition str (v : value) : string :=
  match v with
  | Scalar NaN => "nan"
  | Scalar (Val text) => text
  | Series cs => series_str cs
  end.

(** [not pd.isna(v)] as the condition of an [if]: on a [Series] the
    truth value is ambiguous and pandas raises [ValueError]. *)
Definition notna (v : value) : result bool :=
  match v with
  | Scalar NaN => inr false
  | Scalar (Val _) => inr true
  | Series _ => inl TruthError
  end.

(** [float(str(v).replace('$', '').replace(',', ''))] *)
Definition to_float (v : value) : result spec_float :=
  let text := strip_currency (str v) in
  match float_of_str text with
  | Some x => inr x
  | None => inl (FloatError text)
  end.

(** [label in df.columns and not pd.isna(row[label])] *)
Definition filled (cols : list string) (row : list cell) (label : string)
  : result bool :=
  if has_column cols label then
    v <- getitem cols row label ;; notna v
  else inr false.

(** Lines 110 to 116: the signed amount of a row. *)
Definition resolve_amount (cols : list string) (r : roles) (row : list cell)
  : result spec_float :=
  v <- getitem cols row (amount_col r) ;;
  amount <- to_float v ;;
  use_debit <- filled cols row "debit" ;;
  if use_debit then
    v <- getitem cols row "debit" ;;
    x <- to_float v ;;
    inr (SFopp x)
  else
    use_credit <- filled cols row "credit" ;;
    if use_credit then
      v <- getitem cols row "credit" ;;
      to_float v
    else inr amount.

(** The body of the loop, lines 105 to 127. *)
Definition process_row (cols : list string) (r : roles) (row : list cell)
  : result transaction :=
  v <- getitem cols row (date_col r) ;;
  let date_str := str v in
  v <- getitem cols row (desc_col r) ;;
  let description := str v in
  amount <- resolve_amount cols r row ;;
  inr {| t_date := normalize_date date_str;
         t_description := description;
         t_amount := SFabs amount;
         t_isExpense := lt0 amount;
         t_category := categorize_transaction description amount;
         t_merchant := extract_merchant description;
         t_originalDescription := description |}.

(** [for _, row in df.iterrows(): ... transactions.append(transaction)],
    with the list built so far as accumulator. *)
Fixpoint process_rows (cols : list string) (r : roles)
         (rows : list (list cell)) (transactions : list transaction)
  : result (list transaction) :=
  match rows with
  | [] => inr transactions
  | row :: rest =>
      transaction <- process_row cols r row ;;
      process_rows cols r rest (transactions ++ [transaction])
  end.

(** The [try] block of [process_csv]. *)
Definition process_frame (file_path : string) : result (list transaction) :=
  df <- match read_csv file_path with
        | inl message => inl (LoadError message)
        | inr df => inr df
        end ;;
  let cols := header df in
  r <- resolve_columns cols ;;
  process_rows cols r (rows df) [].

(** [process_csv]: the [except Exception] clause turns any exception
    into the error dictionary. *)
Definition process_csv (file_path : string) : output :=
  match process_frame file_path with
  | inr transactions => Transactions transactions
  | inl e => Error (exn_str e)
  end.

End Pipeline.

(** ** [json.dumps] and the entry point *)

Module Json.
Import PyStr.

Definition dquote : string := String "034" EmptyString.
Definition backslash : string := String "092" EmptyString.

Definition hex_digit (n : N) : ascii :=
  if (n <? 10)%N then ascii_of_N (48 + n) else ascii_of_N (87 + n).

(** [\u00XX] *)
Definition unicode_escape (c : ascii) : string :=
  backslash ++ "u00" ++
  String (hex_digit (code c / 16)) (String (hex_digit (code c mod 16)) EmptyString).

(** The escape of one character with [ensure_ascii]: the printable ASCII
    characters stand for themselves, except the quote and the backslash. *)
Definition escape_char (c : ascii) : string :=
  if Ascii.eqb c "034" then backslash ++ dquote
  else if Ascii.eqb c "092" then backslash ++ backslash
  else if Ascii.eqb c "008" then backslash ++ "b"
  else if Ascii.eqb c "012" then backslash ++ "f"
  else if Ascii.eqb c "010" then backslash ++ "n"
  else if Ascii.eqb c "013" then backslash ++ "r"
  else if Ascii.eqb c "009" then backslash ++ "t"
  else if in_range " " "~" c then String c EmptyString
  else unicode_escape c.

Fixpoint escape (s : string) : string :=
  match s with
  | EmptyString => EmptyString
  | String c s' => escape_char c ++ escape s'
  end.

Definition dumps_str (s : string) : string := dquote ++ escape s ++ dquote.

Definition dumps_bool (b : bool) : string := if b then "true" else "false".

(** A dictionary: [{], the items [key: value] separated by a comma and a
    blank, [}].  The values come already rendered. *)
Definition dumps_item (kv : string * string) : string :=
  dumps_str (fst kv) ++ ": " ++ snd kv.

Definition dumps_dict (items : list (string * string)) : string :=
  "{" ++ join ", " (map dumps_item items) ++ "}".

Definition dumps_list (elements : list string) : string :=
  "[" ++ join ", " elements ++ "]".

End Json.

Section Main.
Context {rt : Runtime}.

(** A float in JSON: [repr], but for the three values JSON has no syntax
    for. *)
Definition dumps_float (x : spec_float) : string :=
  match x with
  | S754_nan => "NaN"
  | S754_infinity false => "Infinity"
  | S754_infinity true => "-Infinity"
  | _ => float_repr x
  end.

Definition dumps_transaction (t : transaction) : string :=
  Json.dumps_dict
    [ ("date", Json.dumps_str (t_date t));
      ("description", Json.dumps_str (t_description t));
      ("amount", dumps_float (t_amount t));
      ("isExpense", Json.dumps_bool (t_isExpense t));
      ("category", Json.dumps_str (t_category t));
      ("merchant", Json.dumps_str (t_merchant t));
      ("originalDescription", Json.dumps_str (t_originalDescription t)) ].

Definition dumps_error (message : string) : string :=
  Json.dumps_dict [ ("error", Json.dumps_str message) ].

(** [json.dumps(result)] *)
Definition dumps (o : output) : string :=
  match o with
  | Transactions ts => Json.dumps_list (map dumps_transaction ts)
  | Error message => dumps_error message
  end.

(** What a run leaves behind: the lines printed on standard output and the
    exit status. *)
Record run := { stdout : list string; exit_status : Z }.

(** The block under [if __name__ == "__main__"].  [argv] is [sys.argv]:
    the script name, then the arguments. *)
Definition main (argv : list string) : run :=
  if (List.length argv <? 2)%nat then
    {| stdout := [dumps_error "No file path provided"]; exit_status := 1 |}
  else
    let file_path := nth 1 argv EmptyString in
    let result := process_csv file_path in
    {| stdout := [dumps result]; exit_status := 0 |}.

End Main.

(** ** A run-time environment to run the model on *)

Module Sample.
Import PyStr.

Definition binary64_of_Z (n : Z) : spec_float := binary_normalize 53 1024 n 0 false.

(** The digits of [s] read into [acc]; [None] if a character is no digit. *)
Fixpoint read_digits (acc : Z) (s : string) : option Z :=
  match s with
  | EmptyString => Some acc
  | String c s' =>
      if is_digit c then read_digits (10 * acc + digit_value c) s' else None
  end.

(** The text before the first point, and the text after it if there is
    a point. *)
Fixpoint split_point (s : string) : string * option string :=
  match s with
  | EmptyString => (EmptyString, None)
  | String c s' =>
      if Ascii.eqb c "." then (EmptyString, Some s')
      else let (a, b) := split_point s' in (String c a, b)
  end.

(** An unsigned literal [digits], [digits.digits], [digits.] or [.digits]
    as the quotient of its digits by a power of ten, rounded to nearest
    even by the binary64 division. *)
Definition read_unsigned (s : string) : option spec_float :=
  let (whole, frac) := split_point s in
  let frac := match frac with Some f => f | None => EmptyString end in
  match (whole ++ frac)%string with
  | EmptyString => None
  | digits =>
      match read_digits 0 digits with
      | None => None
      | Some n =>
          Some (SFdiv 53 1024 (binary64_of_Z n)
                      (binary64_of_Z (10 ^ Z.of_nat (String.length frac))))
      end
  end.

(** A reader of plain decimal literals with an optional sign, and of
    [nan].  It agrees with [float] on the literals of up to fifteen
    digits, whose digits and power of ten are exact in binary64. *)
Definition read_float (text : string) : option spec_float :=
  let s := lower (strip text) in
  if String.eqb s "nan" then Some S754_nan
  else
    match s with
    | String "-" s' => option_map SFopp (read_unsigned s')
    | String "+" s' => read_unsigned s'
    | _ => read_unsigned s
    end.

Definition show_Z (n : Z) : string :=
  NilZero.string_of_uint (N.to_uint (Z.to_N n)).

Fixpoint drop_trailing_zeros (s : string) : string :=
  match s with
  | EmptyString => EmptyString
  | String c s' =>
      match drop_trailing_zeros s' with
      | EmptyString => if Ascii.eqb c "0" then EmptyString else String c EmptyString
      | r => String c r
      end
  end.

(** The exact decimal expansion of a finite float; it reads back to the
    same float.  ([repr] prints the shortest decimal that does.) *)
Definition show_float (x : spec_float) : string :=
  match x with
  | S754_zero s => if s then "-0.0" else "0.0"
  | S754_finite s m e =>
      let sign := if s then "-" else EmptyString in
      if 0 <=? e then sign ++ show_Z (Z.pos m * 2 ^ e) ++ ".0"
      else
        let d := 2 ^ (- e) in
        let frac := Strptime.zero_pad (Z.to_nat (- e))
                      ((Z.pos m mod d) * 5 ^ (- e)) EmptyString in
        sign ++ show_Z (Z.pos m / d) ++ "." ++
        match drop_trailing_zeros frac with
        | EmptyString => "0"
        | digits => digits
        end
  | S754_infinity s => if s then "-inf" else "inf"
  | S754_nan => "nan"
  end.

Definition show_exn (e : exn) : string :=
  match e with
  | LoadError message => message
  | IndexError _ _ => "index out of bounds"
  | KeyError label => label
  | FloatError text => "could not convert string to float: " ++ text
  | TruthError => "The truth value of a Series is ambiguous."
  end.

(** A bank export with separate debit and credit columns. *)
Definition bank : DataFrame :=
  {| columns := ["Date"; "Description"; "Amount"; "Debit"; "Credit"];
     rows :=
       [ [Val "01/02/2023"; Val "POS Purchase At Starbucks 123456789 04/12";
          Val "-4.5"; NaN; NaN];
         [Val "2023-01-15"; Val "Direct Deposit ACME"; Val "$2,500.00"; NaN; NaN];
         [Val "15/01/2023"; Val "Uber trip"; Val "0.0"; Val "12.25"; Val "3.0"];
         [Val "someday"; Val "Refund"; Val "0.0"; NaN; Val "20.0"] ] |}.

(** The same with a cell in the amount column that is no number. *)
Definition broken : DataFrame :=
  {| columns := ["Date"; "Description"; "Amount"];
     rows :=
       [ [Val "01/02/2023"; Val "Coffee"; Val "-4.5"];
         [Val "01/03/2023"; Val "Lunch"; Val "n/a"] ] |}.

(** A header of two columns. *)
Definition narrow : DataFrame :=
  {| columns := ["Date"; "Amount"];
     rows := [ [Val "01/02/2023"; Val "-4.5"] ] |}.

Definition files (path : string) : string + DataFrame :=
  if String.eqb path "bank.csv" then inr bank
  else if String.eqb path "broken.csv" then inr broken
  else if String.eqb path "narrow.csv" then inr narrow
  else inl ("No such file or directory: " ++ path)%string.

#[export] Instance runtime : Runtime :=
  {| read_csv := files;
     float_of_str := read_float;
     float_repr := show_float;
     series_str := fun _ => "Series";
     exn_str := show_exn |}.

(** The roles the header of [bank] resolves to, and what the model
    computes for the file. *)
Definition bank_roles : roles :=
  {| date_col := "date"; desc_col := "description"; amount_col := "amount" |}.

Definition bank_transactions : list transaction :=
  Eval vm_compute in
    match process_csv "bank.csv" with
    | Transactions ts => ts
    | Error _ => []
    end.

End Sample.

(** ** Notions used to state further properties *)

(** A number on two digits and on four, as a date is written. *)
Definition two_digits (n : Z) : string := Strptime.zero_pad 2 n EmptyString.
Definition four_digits (n : Z) : string := Strptime.zero_pad 4 n EmptyString.

(** The year [strptime] makes of the two digits of [%y]. *)
Definition pivot_year (yy : Z) : Z := if yy <=? 68 then yy + 2000 else yy + 1900.

(** One of the two separators of the formats. *)
Definition is_sep (c : ascii) : Prop := c = "/"%char \/ c = "-"%char.

(** The labels the categorizer can answer. *)
Definition category_labels : list string :=
  map fst categories ++ ["uncategorized"].

(** Every character of [s] satisfies [p]. *)
Fixpoint all_chars (p : ascii -> bool) (s : string) : bool :=
  match s with
  | EmptyString => true
  | String c s' => p c && all_chars p s'
  end.

Definition not_space (c : ascii) : bool := negb (PyStr.is_space c).

(** A word: not empty and free of white space. *)
Definition is_word (w : string) : bool :=
  match w with
  | EmptyString => false
  | _ => all_chars not_space w
  end.

(** An ASCII character, as [str.isascii] has it: a code below 128. *)
Definition is_ascii (c : ascii) : bool := (PyStr.code c <? 128)%N.

(** A printable ASCII character, from the blank to the tilde. *)
Definition printable (c : ascii) : bool := PyStr.in_range " " "~" c.

(** How [next] settles a role: on the first column that satisfies [p], or,
    when no column does, on the column at position [i]. *)
Definition role_choice (p : string -> bool) (cols : list string) (i : nat)
           (col : string) : Prop :=
  (exists pre post,
      cols = (pre ++ col :: post)%list /\ p col = true /\
      Forall (fun c => p c = false) pre) \/
  (Forall (fun c => p c = false) cols /\ nth_error cols i = Some col).

(** Neither a dollar sign nor a comma. *)
Definition not_currency (c : ascii) : bool :=
  negb (Ascii.eqb c "$") && negb (Ascii.eqb c ",").

(** The two ways a row can fail: [float] rejects a text, or the truth
    value of a [Series] is asked for, which takes a label carried by two
    columns. *)
Definition row_failure {rt : Runtime} (cols : list string) (e : exn) : Prop :=
  (exists text, e = FloatError text /\ float_of_str text = None) \/
  (e = TruthError /\ ~ NoDup cols).

(** ** More files to run the model on *)

Module Sample2.

(** A header and no row. *)
Definition header_only : DataFrame :=
  {| columns := ["Date"; "Description"; "Amount"]; rows := [] |}.

(** Two columns whose labels both normalize to [debit]. *)
Definition twice_debit : DataFrame :=
  {| columns := ["Date"; "Description"; "Amount"; "Debit"; "DEBIT"];
     rows := [ [Val "01/02/2023"; Val "Coffee"; Val "4.5"; Val "4.5"; NaN] ] |}.

(** A credit column and no debit column, with a free item and a refund. *)
Definition credit_only : DataFrame :=
  {| columns := ["Posted Date"; "Narrative"; "Sum"; "Credit"];
     rows :=
       [ [Val "05/06/2023"; Val "Free coffee"; Val "0.00"; NaN];
         [Val "13/06/2023"; Val "Refund"; Val "0.00"; Val "20.0"] ] |}.

Definition more_files (path : string) : string + DataFrame :=
  if String.eqb path "empty.csv" then inr header_only
  else if String.eqb path "twice.csv" then inr twice_debit
  else if String.eqb path "credit.csv" then inr credit_only
  else Sample.files path.

#[export] Instance more_runtime : Runtime :=
  {| read_csv := more_files;
     float_of_str := Sample.read_float;
     float_repr := Sample.show_float;
     series_str := fun _ => "Series";
     exn_str := Sample.show_exn |}.

Definition credit_roles : roles :=
  {| date_col := "posted_date"; desc_col := "narrative"; amount_col := "sum" |}.

End Sample2.

(** * Properties *)

(** ** The error monad *)

Lemma bind_inr {A B : Type} (r : result A) (k : A -> result B) (b : B) :
  bind r k = inr b -> exists a, r = inr a /\ k a = inr b.
Proof.
  destruct r as [e | a]; simpl; intros H.
  - discriminate.
  - exists a. split; [reflexivity | exact H].
Qed.

Lemma bind_inl {A B : Type} (r : result A) (k : A -> result B) (e : exn) :
  r = inl e -> bind r k = inl e.
Proof. intros ->. reflexivity. Qed.

Lemma bind_fails_later {A B : Type} (r : result A) (k : A -> result B) :
  (forall a, exists e, k a = inl e) -> exists e, bind r k = inl e.
Proof.
  intros Hk. destruct r as [e | a]; simpl.
  - exists e. reflexivity.
  - apply Hk.
Qed.

(** Splits a successful chain of binds into its steps. *)
Ltac unbind H :=
  repeat match type of H with
         | bind _ _ = inr _ =>
             let a := fresh "a" in
             let Ha := fresh "Ha" in
             apply bind_inr in H; destruct H as (a & Ha & H)
         end.

(** ** Floats against zero *)

Lemma abs_not_negative (x : spec_float) : lt0 (SFabs x) = false.
Proof. destruct x as [s | s | | s m e]; reflexivity. Qed.

Lemma positive_not_negative (x : spec_float) : gt0 x = true -> lt0 x = false.
Proof. destruct x as [[|] | [|] | | [|] m e]; simpl; intros H; try reflexivity; discriminate. Qed.

(** ** The loop over the rows *)

Section PipelineFacts.
Context {rt : Runtime}.

Lemma process_rows_inr cols r rows acc ts :
  process_rows cols r rows acc = inr ts ->
  exists new,
    ts = acc ++ new /\
    Forall2 (fun row t => process_row cols r row = inr t) rows new.
Proof.
  revert acc. induction rows as [| row rest IH]; intros acc H; simpl in H.
  - exists []. injection H as <-. split; [symmetry; apply app_nil_r | constructor].
  - unbind H. apply IH in H. destruct H as (new & -> & Hall).
    exists (a :: new). split.
    + rewrite <- app_assoc. reflexivity.
    + constructor; assumption.
Qed.

Lemma process_rows_first_failure cols r pre row post acc e :
  Forall (fun row' => exists t, process_row cols r row' = inr t) pre ->
  process_row cols r row = inl e ->
  process_rows cols r (pre ++ row :: post) acc = inl e.
Proof.
  intros Hpre Hrow. revert acc.
  induction Hpre as [| row' pre' (t & Ht) _ IH]; intros acc; simpl.
  - rewrite Hrow. reflexivity.
  - rewrite Ht. simpl. apply IH.
Qed.

Lemma process_rows_some_failure cols r rows row acc e :
  In row rows ->
  process_row cols r row = inl e ->
  exists e', process_rows cols r rows acc = inl e'.
Proof.
  revert acc. induction rows as [| row' rest IH]; intros acc Hin Hrow.
  - destruct Hin.
  - simpl. destruct Hin as [-> | Hin].
    + rewrite Hrow. exists e. reflexivity.
    + destruct (process_row cols r row') as [e' | t]; simpl.
      * exists e'. reflexivity.
      * apply IH; assumption.
Qed.

(** A successful run read back: the file loaded, the columns resolved and
    every row, in order, gave its transaction. *)
Lemma process_csv_transactions file_path ts :
  process_csv file_path = Transactions ts ->
  exists df r,
    read_csv file_path = inr df /\
    resolve_columns (header df) = inr r /\
    Forall2 (fun row t => process_row (header df) r row = inr t) (rows df) ts.
Proof.
  unfold process_csv. intros H.
  destruct (process_frame file_path) as [e | ts'] eqn:Hframe; [discriminate |].
  injection H as ->. unfold process_frame in Hframe.
  destruct (read_csv file_path) as [message | df]; [discriminate |].
  simpl in Hframe. unbind Hframe.
  apply process_rows_inr in Hframe. destruct Hframe as (new & -> & Hall).
  exists df, a. auto.
Qed.

Lemma process_csv_row file_path ts df r i row :
  process_csv file_path = Transactions ts ->
  read_csv file_path = inr df ->
  resolve_columns (header df) = inr r ->
  nth_error (rows df) i = Some row ->
  exists t, nth_error ts i = Some t /\ process_row (header df) r row = inr t.
Proof.
  intros H Hdf Hr Hrow.
  apply process_csv_transactions in H. destruct H as (df' & r' & Hdf' & Hr' & Hall).
  rewrite Hdf in Hdf'. injection Hdf' as <-.
  rewrite Hr in Hr'. injection Hr' as <-.
  clear Hdf Hr. revert i Hrow.
  induction Hall as [| row' t rows' ts' Ht _ IH]; intros [| i] Hrow; simpl in *;
    try discriminate.
  - injection Hrow as ->. exists t. auto.
  - apply IH. exact Hrow.
Qed.

Lemma process_row_inr cols r row t :
  process_row cols r row = inr t ->
  exists vd vs amount,
    getitem cols row (date_col r) = inr vd /\
    getitem cols row (desc_col r) = inr vs /\
    resolve_amount cols r row = inr amount /\
    t = {| t_date := normalize_date (str vd);
           t_description := str vs;
           t_amount := SFabs amount;
           t_isExpense := lt0 amount;
           t_category := categorize_transaction (str vs) amount;
           t_merchant := extract_merchant (str vs);
           t_originalDescription := str vs |}.
Proof.
  unfold process_row. intros H. unbind H. injection H as <-.
  exists a, a0, a1. auto.
Qed.

End PipelineFacts.

(** ** Column resolution *)

Lemma resolve_columns_short (cols : list string) :
  (List.length cols < 3)%nat ->
  resolve_columns cols = inl (IndexError (List.length cols) (List.length cols)).
Proof.
  destruct cols as [| c0 [| c1 [| c2 rest]]]; simpl; intros H;
    try reflexivity.
  lia.
Qed.

Lemma resolve_columns_wide (cols : list string) :
  (3 <= List.length cols)%nat -> exists r, resolve_columns cols = inr r.
Proof.
  destruct cols as [| c0 [| c1 [| c2 rest]]]; simpl; intros H; try lia.
  eexists. reflexivity.
Qed.

Lemma header_length (df : DataFrame) :
  List.length (header df) = List.length (columns df).
Proof. unfold header. apply length_map. Qed.

(** ** The amount of a row *)

Section AmountFacts.
Context {rt : Runtime}.

Lemma to_float_present (text : string) (x : spec_float) :
  float_of_str (strip_currency text) = Some x ->
  to_float (Scalar (Val text)) = inr x.
Proof. unfold to_float. simpl. intros ->. reflexivity. Qed.

Lemma to_float_rejected (v : value) :
  float_of_str (strip_currency (str v)) = None ->
  to_float v = inl (FloatError (strip_currency (str v))).
Proof. unfold to_float. intros ->. reflexivity. Qed.

Lemma filled_present cols row label text :
  has_column cols label = true ->
  getitem cols row label = inr (Scalar (Val text)) ->
  filled cols row label = inr true.
Proof. unfold filled. intros -> ->. reflexivity. Qed.

Lemma filled_missing cols row label :
  has_column cols label = true ->
  getitem cols row label = inr (Scalar NaN) ->
  filled cols row label = inr false.
Proof. unfold filled. intros -> ->. reflexivity. Qed.

(** A cell of the amount column that [float] rejects fails the row,
    whatever the debit and credit cells hold. *)
Lemma process_row_rejected_amount cols r row v :
  getitem cols row (amount_col r) = inr v ->
  float_of_str (strip_currency (str v)) = None ->
  exists e, process_row cols r row = inl e.
Proof.
  intros Hv Hfloat. unfold process_row.
  apply bind_fails_later. intros vd.
  apply bind_fails_later. intros vs.
  unfold resolve_amount. rewrite Hv. simpl.
  rewrite (to_float_rejected v Hfloat). simpl.
  eexists. reflexivity.
Qed.

End AmountFacts.

(** ** Claims on the row pipeline *)

Section PipelineClaims.
Context {rt : Runtime}.

(** C1. For every row of a file that [process_csv] processes, the
    transaction at the position of the row has as [amount] the absolute
    value of the signed amount resolved for the row, which is not below
    zero, and [isExpense] is true exactly when that signed amount is
    below zero. *)
Theorem amount_is_magnitude_and_flag_is_sign file_path ts df r i row :
  process_csv file_path = Transactions ts ->
  read_csv file_path = inr df ->
  resolve_columns (header df) = inr r ->
  nth_error (rows df) i = Some row ->
  exists t amount,
    nth_error ts i = Some t /\
    resolve_amount (header df) r row = inr amount /\
    t_amount t = SFabs amount /\
    lt0 (t_amount t) = false /\
    (t_isExpense t = true <-> lt0 amount = true).
Proof.
  intros H Hdf Hr Hrow.
  destruct (process_csv_row _ _ _ _ _ _ H Hdf Hr Hrow) as (t & Hnth & Ht).
  apply process_row_inr in Ht.
  destruct Ht as (vd & vs & amount & _ & _ & Hamount & ->).
  exists {| t_date := normalize_date (str vd);
            t_description := str vs;
            t_amount := SFabs amount;
            t_isExpense := lt0 amount;
            t_category := categorize_transaction (str vs) amount;
            t_merchant := extract_merchant (str vs);
            t_originalDescription := str vs |}, amount.
  simpl. repeat split; auto using abs_not_negative.
Qed.

(** C2. When the signed amount resolved for a row is above zero, the
    transaction of the row has [isExpense] false and category [income];
    the categorizer answers [income] for such an amount whatever the
    description and whatever the keyword table. *)
Theorem positive_amount_is_income file_path ts df r i row amount :
  process_csv file_path = Transactions ts ->
  read_csv file_path = inr df ->
  resolve_columns (header df) = inr r ->
  nth_error (rows df) i = Some row ->
  resolve_amount (header df) r row = inr amount ->
  gt0 amount = true ->
  (exists t,
      nth_error ts i = Some t /\
      t_isExpense t = false /\
      t_category t = "income") /\
  (forall table description,
      categorize_with table description amount = "income").
Proof.
  intros H Hdf Hr Hrow Hamount Hpos. split.
  - destruct (process_csv_row _ _ _ _ _ _ H Hdf Hr Hrow) as (t & Hnth & Ht).
    apply process_row_inr in Ht.
    destruct Ht as (vd & vs & amount' & _ & _ & Hamount' & ->).
    rewrite Hamount in Hamount'. injection Hamount' as <-.
    eexists. split; [exact Hnth |]. simpl. split.
    + apply positive_not_negative. exact Hpos.
    + unfold categorize_transaction, categorize_with. rewrite Hpos. reflexivity.
  - intros table description. unfold categorize_with. rewrite Hpos. reflexivity.
Qed.

(** C3. [process_csv] returns either the error object or a transaction
    for every row, never a part of the list.  It returns the error
    object when [read_csv] raises, when the header has fewer than three
    columns, and when a row raises: the exception of the first such row
    is the one reported, and a cell of the amount column that [float]
    rejects after cleaning is one way for a row to raise. *)
Theorem all_or_nothing file_path :
  (forall message,
      read_csv file_path = inl message ->
      process_csv file_path = Error (exn_str (LoadError message))) /\
  (forall df,
      read_csv file_path = inr df ->
      (List.length (columns df) < 3)%nat ->
      process_csv file_path =
        Error (exn_str (IndexError (List.length (columns df))
                                   (List.length (columns df))))) /\
  (forall df r pre row post e,
      read_csv file_path = inr df ->
      resolve_columns (header df) = inr r ->
      rows df = pre ++ row :: post ->
      Forall (fun row' => exists t, process_row (header df) r row' = inr t) pre ->
      process_row (header df) r row = inl e ->
      process_csv file_path = Error (exn_str e)) /\
  (forall df r row e,
      read_csv file_path = inr df ->
      resolve_columns (header df) = inr r ->
      In row (rows df) ->
      process_row (header df) r row = inl e ->
      exists e', process_csv file_path = Error (exn_str e')) /\
  (forall df r row v,
      read_csv file_path = inr df ->
      resolve_columns (header df) = inr r ->
      In row (rows df) ->
      getitem (header df) row (amount_col r) = inr v ->
      float_of_str (strip_currency (str v)) = None ->
      exists e', process_csv file_path = Error (exn_str e')) /\
  (forall ts,
      process_csv file_path = Transactions ts ->
      exists df r,
        read_csv file_path = inr df /\
        resolve_columns (header df) = inr r /\
        Forall2 (fun row t => process_row (header df) r row = inr t)
                (rows df) ts).
Proof.
  assert (Hany : forall df r row e,
             read_csv file_path = inr df ->
             resolve_columns (header df) = inr r ->
             In row (rows df) ->
             process_row (header df) r row = inl e ->
             exists e', process_csv file_path = Error (exn_str e')).
  { intros df r row e Hdf Hr Hin Hrow.
    unfold process_csv, process_frame. rewrite Hdf. simpl. rewrite Hr. simpl.
    destruct (process_rows_some_failure _ _ _ _ [] _ Hin Hrow) as (e' & ->).
    exists e'. reflexivity. }
  repeat split.
  - intros message Hload. unfold process_csv, process_frame.
    rewrite Hload. reflexivity.
  - intros df Hdf Hshort. unfold process_csv, process_frame.
    rewrite Hdf. simpl. rewrite resolve_columns_short.
    + rewrite header_length. reflexivity.
    + rewrite header_length. exact Hshort.
  - intros df r pre row post e Hdf Hr Hrows Hpre Hrow.
    unfold process_csv, process_frame. rewrite Hdf. simpl. rewrite Hr. simpl.
    rewrite Hrows, (process_rows_first_failure _ _ _ _ _ _ _ Hpre Hrow).
    reflexivity.
  - exact Hany.
  - intros df r row v Hdf Hr Hin Hv Hfloat.
    destruct (process_row_rejected_amount _ _ _ _ Hv Hfloat) as (e & He).
    exact (Hany _ _ _ _ Hdf Hr Hin He).
  - apply process_csv_transactions.
Qed.

(** C6. A filled cell of a [debit] column makes the signed amount the
    negation of its cleaned number, whatever the [credit] cell holds; a
    filled [credit] cell gives its cleaned number as the amount when the
    [debit] cell of the row is empty.  Conversely an amount resolved
    next to a filled debit cell is the negation of that cell's number. *)
Theorem debit_overrides_credit cols r row v amount0 :
  getitem cols row (amount_col r) = inr v ->
  to_float v = inr amount0 ->
  has_column cols "debit" = true ->
  (forall debit x,
      getitem cols row "debit" = inr (Scalar (Val debit)) ->
      float_of_str (strip_currency debit) = Some x ->
      resolve_amount cols r row = inr (SFopp x)) /\
  (forall credit x,
      getitem cols row "debit" = inr (Scalar NaN) ->
      has_column cols "credit" = true ->
      getitem cols row "credit" = inr (Scalar (Val credit)) ->
      float_of_str (strip_currency credit) = Some x ->
      resolve_amount cols r row = inr x) /\
  (forall debit amount,
      getitem cols row "debit" = inr (Scalar (Val debit)) ->
      resolve_amount cols r row = inr amount ->
      exists x,
        float_of_str (strip_currency debit) = Some x /\ amount = SFopp x).
Proof.
  intros Hv Hamount0 Hdebit. repeat split.
  - intros debit x Hcell Hx. unfold resolve_amount.
    rewrite Hv. simpl. rewrite Hamount0. simpl.
    rewrite (filled_present _ _ _ _ Hdebit Hcell). simpl.
    rewrite Hcell. simpl. rewrite (to_float_present _ _ Hx). reflexivity.
  - intros credit x Hcell Hcredit Hcell' Hx. unfold resolve_amount.
    rewrite Hv. simpl. rewrite Hamount0. simpl.
    rewrite (filled_missing _ _ _ Hdebit Hcell). simpl.
    rewrite (filled_present _ _ _ _ Hcredit Hcell'). simpl.
    rewrite Hcell'. simpl. apply to_float_present. exact Hx.
  - intros debit amount Hcell. unfold resolve_amount.
    rewrite Hv. simpl. rewrite Hamount0. simpl.
    rewrite (filled_present _ _ _ _ Hdebit Hcell). simpl.
    rewrite Hcell. simpl. unfold to_float. simpl.
    destruct (float_of_str (strip_currency debit)) as [x |]; simpl; intros H.
    + injection H as <-. exists x. auto.
    + discriminate.
Qed.

(** C9. Run without an argument, the script prints the one line
    [{"error": "No file path provided"}] and exits with status 1; run on
    a file whose processing raises, it prints the error object of the
    exception as its one line and exits with status 0. *)
Theorem exit_status_contract :
  (forall argv,
      (List.length argv < 2)%nat ->
      main argv =
        {| stdout := [ ("{" ++ Json.dquote ++ "error" ++ Json.dquote ++ ": " ++
                        Json.dquote ++ "No file path provided" ++ Json.dquote ++
                        "}")%string ];
           exit_status := 1 |}) /\
  (forall script file_path rest e,
      process_frame file_path = inl e ->
      main (script :: file_path :: rest) =
        {| stdout := [ ("{" ++ Json.dquote ++ "error" ++ Json.dquote ++ ": " ++
                        Json.dumps_str (exn_str e) ++ "}")%string ];
           exit_status := 0 |} /\
      process_csv file_path = Error (exn_str e)).
Proof.
  split.
  - intros argv Hlen. unfold main.
    apply Nat.ltb_lt in Hlen. rewrite Hlen. reflexivity.
  - intros script file_path rest e He. unfold main, process_csv. simpl.
    rewrite He. split; reflexivity.
Qed.

End PipelineClaims.

(** ** The claims on the pipeline at the sample files *)

Lemma amount_is_magnitude_and_flag_is_sign_witness :
  exists t amount,
    nth_error Sample.bank_transactions 2 = Some t /\
    resolve_amount (rt := Sample.runtime) (header Sample.bank) Sample.bank_roles
      [Val "15/01/2023"; Val "Uber trip"; Val "0.0"; Val "12.25"; Val "3.0"]
    = inr amount /\
    t_amount t = SFabs amount /\
    lt0 (t_amount t) = false /\
    (t_isExpense t = true <-> lt0 amount = true).
Proof.
  apply (amount_is_magnitude_and_flag_is_sign (rt := Sample.runtime)
           "bank.csv" Sample.bank_transactions Sample.bank Sample.bank_roles 2).
  - reflexivity.
  - reflexivity.
  - reflexivity.
  - reflexivity.
Defined.

Lemma positive_amount_is_income_witness :
  (exists t,
      nth_error Sample.bank_transactions 1 = Some t /\
      t_isExpense t = false /\
      t_category t = "income") /\
  (forall table description,
      categorize_with table description (Sample.binary64_of_Z 2500) = "income").
Proof.
  apply (positive_amount_is_income (rt := Sample.runtime)
           "bank.csv" Sample.bank_transactions Sample.bank Sample.bank_roles 1
           [Val "2023-01-15"; Val "Direct Deposit ACME"; Val "$2,500.00"; NaN; NaN]).
  - reflexivity.
  - reflexivity.
  - reflexivity.
  - reflexivity.
  - reflexivity.
  - reflexivity.
Defined.

Lemma all_or_nothing_witness :
  process_csv (rt := Sample.runtime) "nope.csv"
  = Error "No such file or directory: nope.csv" /\
  process_csv (rt := Sample.runtime) "narrow.csv" = Error "index out of bounds" /\
  process_csv (rt := Sample.runtime) "broken.csv"
  = Error "could not convert string to float: n/a" /\
  (exists e', process_csv (rt := Sample.runtime) "broken.csv"
              = Error (Sample.show_exn e')) /\
  (exists df r,
      Sample.files "bank.csv" = inr df /\
      resolve_columns (header df) = inr r /\
      Forall2 (fun row t => process_row (rt := Sample.runtime) (header df) r row = inr t)
              (rows df) Sample.bank_transactions).
Proof.
  pose proof (all_or_nothing (rt := Sample.runtime) "nope.csv") as Hnope.
  pose proof (all_or_nothing (rt := Sample.runtime) "narrow.csv") as Hnarrow.
  pose proof (all_or_nothing (rt := Sample.runtime) "broken.csv") as Hbroken.
  pose proof (all_or_nothing (rt := Sample.runtime) "bank.csv") as Hbank.
  destruct Hnope as (Hload & _).
  destruct Hnarrow as (_ & Hheader & _).
  destruct Hbroken as (_ & _ & Hfirst & Hany & Hcell & _).
  destruct Hbank as (_ & _ & _ & _ & _ & Hall).
  split; [| split; [| split; [| split]]].
  - apply (Hload "No such file or directory: nope.csv"). reflexivity.
  - apply (Hheader Sample.narrow).
    + reflexivity.
    + simpl. lia.
  - apply (Hfirst Sample.broken Sample.bank_roles
                  [[Val "01/02/2023"; Val "Coffee"; Val "-4.5"]]
                  [Val "01/03/2023"; Val "Lunch"; Val "n/a"] []
                  (FloatError "n/a")).
    + reflexivity.
    + reflexivity.
    + reflexivity.
    + constructor; [| constructor]. eexists. reflexivity.
    + reflexivity.
  - apply (Hcell Sample.broken Sample.bank_roles
                 [Val "01/03/2023"; Val "Lunch"; Val "n/a"]
                 (Scalar (Val "n/a"))).
    + reflexivity.
    + reflexivity.
    + simpl. auto.
    + reflexivity.
    + reflexivity.
  - apply Hall. reflexivity.
Defined.

Lemma debit_overrides_credit_witness :
  (exists x,
      Sample.read_float "12.25" = Some x /\
      resolve_amount (rt := Sample.runtime) (header Sample.bank) Sample.bank_roles
        [Val "15/01/2023"; Val "Uber trip"; Val "0.0"; Val "12.25"; Val "3.0"]
      = inr (SFopp x)) /\
  (exists x,
      Sample.read_float "20.0" = Some x /\
      resolve_amount (rt := Sample.runtime) (header Sample.bank) Sample.bank_roles
        [Val "someday"; Val "Refund"; Val "0.0"; NaN; Val "20.0"]
      = inr x).
Proof.
  split.
  - eexists. split; [reflexivity |].
    refine (proj1 (debit_overrides_credit (rt := Sample.runtime)
                     (header Sample.bank) Sample.bank_roles
                     [Val "15/01/2023"; Val "Uber trip"; Val "0.0"; Val "12.25"; Val "3.0"]
                     (Scalar (Val "0.0")) float0 _ _ _) "12.25" _ _ _);
      reflexivity.
  - eexists. split; [reflexivity |].
    refine (proj1 (proj2 (debit_overrides_credit (rt := Sample.runtime)
                     (header Sample.bank) Sample.bank_roles
                     [Val "someday"; Val "Refund"; Val "0.0"; NaN; Val "20.0"]
                     (Scalar (Val "0.0")) float0 _ _ _)) "20.0" _ _ _ _ _);
      reflexivity.
Defined.

Lemma exit_status_contract_witness :
  main (rt := Sample.runtime) ["process_csv.py"]
  = {| stdout := [ ("{" ++ Json.dquote ++ "error" ++ Json.dquote ++ ": " ++
                    Json.dquote ++ "No file path provided" ++ Json.dquote ++
                    "}")%string ];
       exit_status := 1 |} /\
  main (rt := Sample.runtime) ["process_csv.py"; "broken.csv"]
  = {| stdout := [ ("{" ++ Json.dquote ++ "error" ++ Json.dquote ++ ": " ++
                    Json.dquote ++ "could not convert string to float: n/a" ++
                    Json.dquote ++ "}")%string ];
       exit_status := 0 |}.
Proof.
  destruct (exit_status_contract (rt := Sample.runtime)) as (Husage & Hfailure).
  split.
  - apply Husage. simpl. lia.
  - apply (Hfailure "process_csv.py" "broken.csv" [] (FloatError "n/a")).
    reflexivity.
Defined.

(** ** The categorizer *)

Lemma any_keyword_true (description : string) (keywords : list string) :
  (exists keyword,
      In keyword keywords /\ PyStr.contains description keyword = true) ->
  any_keyword description keywords = true.
Proof.
  intros (keyword & Hin & Hk).
  induction keywords as [| k rest IH]; simpl in *.
  - destruct Hin.
  - destruct (PyStr.contains description k) eqn:Hc; [reflexivity |].
    destruct Hin as [-> | Hin]; [congruence | auto].
Qed.

Lemma any_keyword_false (description : string) (keywords : list string) :
  (forall keyword,
      In keyword keywords -> PyStr.contains description keyword = false) ->
  any_keyword description keywords = false.
Proof.
  induction keywords as [| k rest IH]; simpl; intros H.
  - reflexivity.
  - rewrite (H k (or_introl eq_refl)). apply IH. intros k' Hk'. apply H. auto.
Qed.

Lemma scan_categories_first table description pre category keywords post :
  table = pre ++ (category, keywords) :: post ->
  (forall category' keywords',
      In (category', keywords') pre -> any_keyword description keywords' = false) ->
  any_keyword description keywords = true ->
  scan_categories table description = category.
Proof.
  intros -> Hpre Hhit.
  induction pre as [| [c kws] pre IH]; simpl.
  - rewrite Hhit. reflexivity.
  - rewrite (Hpre c kws (or_introl eq_refl)). apply IH.
    intros c' kws' Hin. apply (Hpre c' kws'). right. exact Hin.
Qed.

Lemma scan_categories_none table description :
  (forall category keywords,
      In (category, keywords) table -> any_keyword description keywords = false) ->
  scan_categories table description = "uncategorized".
Proof.
  induction table as [| [c kws] rest IH]; simpl; intros H.
  - reflexivity.
  - rewrite (H c kws (or_introl eq_refl)). apply IH.
    intros c' kws' Hin. apply (H c' kws'). right. exact Hin.
Qed.

(** C5. For an amount that is not above zero the categorizer walks the
    table in its order (groceries, dining, transportation, utilities,
    entertainment, shopping, housing, then the keyword-less income) and
    answers the first category one of whose keywords occurs in the
    lower-cased description, [uncategorized] when no keyword occurs; a
    description with both [coffee] and [uber] and no grocery keyword is
    [dining]. *)
Theorem first_matching_category (description : string) (amount : spec_float) :
  gt0 amount = false ->
  map fst categories =
    [ "groceries"; "dining"; "transportation"; "utilities"; "entertainment";
      "shopping"; "housing"; "income" ] /\
  In ("income", []) categories /\
  (forall pre category keywords post,
      categories = pre ++ (category, keywords) :: post ->
      (forall category' keywords' keyword,
          In (category', keywords') pre ->
          In keyword keywords' ->
          PyStr.contains (PyStr.lower description) keyword = false) ->
      (exists keyword,
          In keyword keywords /\
          PyStr.contains (PyStr.lower description) keyword = true) ->
      categorize_transaction description amount = category) /\
  ((forall category keywords keyword,
       In (category, keywords) categories ->
       In keyword keywords ->
       PyStr.contains (PyStr.lower description) keyword = false) ->
   categorize_transaction description amount = "uncategorized") /\
  (PyStr.contains (PyStr.lower description) "coffee" = true ->
   PyStr.contains (PyStr.lower description) "uber" = true ->
   (forall keyword,
       In keyword ["grocery"; "market"; "food"; "supermarket"; "trader"; "whole foods"] ->
       PyStr.contains (PyStr.lower description) keyword = false) ->
   categorize_transaction description amount = "dining").
Proof.
  intros Hamount.
  assert (Hscan : categorize_transaction description amount
                  = scan_categories categories (PyStr.lower description)).
  { unfold categorize_transaction, categorize_with. rewrite Hamount. reflexivity. }
  split; [reflexivity |].
  split; [simpl; tauto |].
  split; [| split].
  - intros pre category keywords post Htable Hpre Hhit. rewrite Hscan.
    apply (scan_categories_first _ _ pre category keywords post Htable).
    + intros c' kws' Hin. apply any_keyword_false.
      intros k Hk. exact (Hpre c' kws' k Hin Hk).
    + apply any_keyword_true. exact Hhit.
  - intros Hnone. rewrite Hscan. apply scan_categories_none.
    intros c kws Hin. apply any_keyword_false.
    intros k Hk. exact (Hnone c kws k Hin Hk).
  - intros Hcoffee _ Hgroceries. rewrite Hscan.
    unfold categories.
    apply (scan_categories_first _ _
             [("groceries", ["grocery"; "market"; "food"; "supermarket"; "trader"; "whole foods"])]
             "dining"
             ["restaurant"; "cafe"; "coffee"; "starbucks"; "mcdonalds"; "takeout"]
             (skipn 2 categories)).
    + reflexivity.
    + intros c' kws' [Heq | []]. injection Heq as <- <-.
      apply any_keyword_false. exact Hgroceries.
    + apply any_keyword_true. exists "coffee". split; [simpl; tauto | exact Hcoffee].
Qed.

Lemma first_matching_category_witness :
  categorize_transaction "UBER ride to the Coffee bar" (Sample.binary64_of_Z (-5))
  = "dining" /\
  categorize_transaction "Uber ride" (Sample.binary64_of_Z (-5)) = "transportation" /\
  categorize_transaction "Dentist" float0 = "uncategorized".
Proof.
  split; [| split].
  - destruct (first_matching_category
                "UBER ride to the Coffee bar" (Sample.binary64_of_Z (-5)) eq_refl)
      as (_ & _ & _ & _ & Hdining).
    apply Hdining; try reflexivity.
    intros keyword Hin. simpl in Hin.
    repeat (destruct Hin as [<- | Hin]; [reflexivity |]). destruct Hin.
  - destruct (first_matching_category "Uber ride" (Sample.binary64_of_Z (-5)) eq_refl)
      as (_ & _ & Hfirst & _).
    apply (Hfirst (firstn 2 categories)
                  "transportation"
                  ["uber"; "lyft"; "taxi"; "transport"; "transit"; "train"; "metro"]
                  (skipn 3 categories)).
    + reflexivity.
    + intros c kws k Hin Hk. simpl in Hin.
      repeat (destruct Hin as [Heq | Hin];
              [injection Heq as <- <-; simpl in Hk;
               repeat (destruct Hk as [<- | Hk]; [reflexivity |]); destruct Hk |]).
      destruct Hin.
    + exists "uber". split; [simpl; tauto | reflexivity].
  - destruct (first_matching_category "Dentist" float0 eq_refl)
      as (_ & _ & _ & Hnone & _).
    apply Hnone. intros c kws k Hin Hk. simpl in Hin.
    repeat (destruct Hin as [Heq | Hin];
            [injection Heq as <- <-; simpl in Hk;
             repeat (destruct Hk as [<- | Hk]; [reflexivity |]); destruct Hk |]).
    destruct Hin.
Defined.

(** ** The date normalizer *)

Lemma try_formats_first formats date_str pre fmt post dt :
  formats = pre ++ fmt :: post ->
  (forall f, In f pre -> Strptime.strptime date_str f = None) ->
  Strptime.strptime date_str fmt = Some dt ->
  try_formats formats date_str = Strptime.strftime dt.
Proof.
  intros -> Hpre Hfmt. induction pre as [| f pre IH]; simpl.
  - rewrite Hfmt. reflexivity.
  - rewrite (Hpre f (or_introl eq_refl)). apply IH.
    intros f' Hin. apply Hpre. right. exact Hin.
Qed.

Lemma try_formats_none formats date_str :
  (forall f, In f formats -> Strptime.strptime date_str f = None) ->
  try_formats formats date_str = date_str.
Proof.
  induction formats as [| f rest IH]; simpl; intros H.
  - reflexivity.
  - rewrite (H f (or_introl eq_refl)). apply IH.
    intros f' Hin. apply H. right. exact Hin.
Qed.

(** Either no format parses and the text comes back, or some format
    parses and its date is rendered. *)
Lemma try_formats_cases formats date_str :
  try_formats formats date_str = date_str \/
  exists fmt dt,
    In fmt formats /\
    Strptime.strptime date_str fmt = Some dt /\
    try_formats formats date_str = Strptime.strftime dt.
Proof.
  induction formats as [| f rest IH]; simpl.
  - left. reflexivity.
  - destruct (Strptime.strptime date_str f) as [dt |] eqn:Hf.
    + right. exists f, dt. auto.
    + destruct IH as [IH | (fmt & dt & Hin & Hfmt & IH)].
      * left. exact IH.
      * right. exists fmt, dt. auto.
Qed.

(** ** Re-reading a rendered date *)

Module DateFacts.
Import PyStr Strptime.

(** A property of the ten digit characters holds of every [digit_char]. *)
Lemma digit_char_forall (p : ascii -> bool) :
  forallb p ["0"; "1"; "2"; "3"; "4"; "5"; "6"; "7"; "8"; "9"]%char = true ->
  forall n, p (digit_char n) = true.
Proof.
  intros Hall n. unfold digit_char.
  pose proof (Z.mod_pos_bound n 10 eq_refl) as Hk.
  set (k := n mod 10) in *. clearbody k.
  simpl in Hall. repeat rewrite andb_true_iff in Hall.
  assert (Hcases : k = 0 \/ k = 1 \/ k = 2 \/ k = 3 \/ k = 4 \/
                   k = 5 \/ k = 6 \/ k = 7 \/ k = 8 \/ k = 9) by lia.
  repeat (destruct Hcases as [-> | Hcases]; [simpl; tauto |]).
  subst k. simpl. tauto.
Qed.

Lemma digit_char_is_digit n : is_digit (digit_char n) = true.
Proof. apply digit_char_forall. reflexivity. Qed.

Lemma digit_char_not_space n : is_space (digit_char n) = false.
Proof.
  apply negb_true_iff. apply (digit_char_forall (fun c => negb (is_space c))).
  reflexivity.
Qed.

Lemma digit_char_not_slash n : Ascii.eqb (digit_char n) "/" = false.
Proof.
  apply negb_true_iff. apply (digit_char_forall (fun c => negb (Ascii.eqb c "/"))).
  reflexivity.
Qed.

Lemma digit_char_value n : digit_value (digit_char n) = n mod 10.
Proof.
  apply Z.eqb_eq.
  unfold digit_char.
  pose proof (Z.mod_pos_bound n 10 eq_refl) as Hk.
  set (k := n mod 10) in *. clearbody k.
  assert (Hcases : k = 0 \/ k = 1 \/ k = 2 \/ k = 3 \/ k = 4 \/
                   k = 5 \/ k = 6 \/ k = 7 \/ k = 8 \/ k = 9) by lia.
  repeat (destruct Hcases as [-> | Hcases]; [reflexivity |]).
  subst k. reflexivity.
Qed.

Lemma int_zero_pad4 y : 0 <= y <= 9999 -> int (zero_pad 4 y EmptyString) = y.
Proof.
  intros Hy. unfold int, strip. simpl zero_pad.
  simpl lstrip. rewrite !digit_char_not_space.
  simpl rstrip. rewrite !digit_char_not_space.
  cbn [int_digits]. rewrite !digit_char_value.
  Z.div_mod_to_equations. lia.
Qed.

Lemma compile_formats :
  compile "%m/%d/%Y" = Some [Directive Dir_m; Literal "/"; Directive Dir_d; Literal "/"; Directive Dir_Y] /\
  compile "%Y-%m-%d" = Some [Directive Dir_Y; Literal "-"; Directive Dir_m; Literal "-"; Directive Dir_d].
Proof. split; reflexivity. Qed.

(** A month followed by a slash does not match a text whose second and
    third characters are digits. *)
Lemma month_slash_rejects_digits items a b c rest f :
  Ascii.eqb b "/" = false ->
  Ascii.eqb c "/" = false ->
  regex_match (Directive Dir_m :: Literal "/" :: items)
              (String a (String b (String c rest))) f = [].
Proof.
  intros Hb Hc. simpl. rewrite ?Hb, ?Hc.
  repeat match goal with
         | |- context [if ?x then _ else _] =>
             destruct x; simpl; rewrite ?Hb, ?Hc
         end; reflexivity.
Qed.

Lemma year_matches items a b c d rest f :
  is_digit a = true -> is_digit b = true -> is_digit c = true -> is_digit d = true ->
  regex_match (Directive Dir_Y :: items)
              (String a (String b (String c (String d rest)))) f
  = regex_match items rest
      (record_group Dir_Y (String a (String b (String c (String d EmptyString)))) f).
Proof.
  intros Ha Hb Hc Hd. cbn [regex_match alternatives match_alts match_seq flat_map fst snd].
  rewrite Ha, Hb, Hc, Hd. cbn [flat_map fst snd]. apply app_nil_r.
Qed.

Lemma literal_matches c items rest f :
  regex_match (Literal c :: items) (String c rest) f = regex_match items rest f.
Proof. cbn [regex_match]. rewrite Ascii.eqb_refl. reflexivity. Qed.

Lemma month_matches m items rest f :
  1 <= m <= 12 ->
  regex_match (Directive Dir_m :: Literal "-" :: items)
              (zero_pad 2 m EmptyString ++ String "-" rest) f
  = regex_match items rest
      {| f_year := f_year f; f_month := m; f_day := f_day f |}.
Proof.
  intros Hm.
  assert (Hcases : m = 1 \/ m = 2 \/ m = 3 \/ m = 4 \/ m = 5 \/ m = 6 \/
                   m = 7 \/ m = 8 \/ m = 9 \/ m = 10 \/ m = 11 \/ m = 12) by lia.
  repeat (destruct Hcases as [-> | Hcases];
          [simpl; rewrite ?app_nil_r; reflexivity |]).
  subst m. simpl. rewrite ?app_nil_r. reflexivity.
Qed.

Lemma day_matches d f :
  1 <= d <= 31 ->
  exists more,
    regex_match [Directive Dir_d] (zero_pad 2 d EmptyString) f
    = ({| f_year := f_year f; f_month := f_month f; f_day := d |}, EmptyString)
        :: more.
Proof.
  intros Hd.
  assert (Hcases : exists k, (k < 31)%nat /\ d = 1 + Z.of_nat k).
  { exists (Z.to_nat (d - 1)). lia. }
  destruct Hcases as (k & Hk & ->).
  do 31 (destruct k as [| k]; [simpl; eexists; reflexivity |]).
  lia.
Qed.

Lemma days_in_month_le y m : days_in_month y m <= 31.
Proof.
  unfold days_in_month.
  repeat match goal with
         | |- context [match ?x with _ => _ end] => destruct x
         end; lia.
Qed.

Lemma valid_date_bounds y m d :
  valid_date y m d = true ->
  1 <= y <= 9999 /\ 1 <= m <= 12 /\ 1 <= d <= 31.
Proof.
  unfold valid_date. rewrite !andb_true_iff, !Z.leb_le.
  pose proof (days_in_month_le y m). lia.
Qed.

Lemma strptime_valid date_str fmt dt :
  strptime date_str fmt = Some dt ->
  valid_date (year dt) (month dt) (day dt) = true.
Proof.
  unfold strptime. intros H.
  destruct (compile fmt) as [items |]; [| discriminate].
  destruct (regex_match items date_str found0) as [| [f rest] more]; [discriminate |].
  destruct rest; [| discriminate].
  destruct (valid_date _ _ _) eqn:Hvalid; [| discriminate].
  injection H as <-. exact Hvalid.
Qed.

Lemma strptime_iso_first dt :
  valid_date (year dt) (month dt) (day dt) = true ->
  strptime (strftime_iso dt) "%m/%d/%Y" = None.
Proof.
  intros _. unfold strptime. rewrite (proj1 compile_formats).
  unfold strftime_iso. cbn [zero_pad append].
  rewrite month_slash_rejects_digits by apply digit_char_not_slash.
  reflexivity.
Qed.

Lemma strptime_iso_second dt :
  valid_date (year dt) (month dt) (day dt) = true ->
  strptime (strftime_iso dt) "%Y-%m-%d" = Some dt.
Proof.
  intros Hvalid. destruct dt as [y m d]. simpl in Hvalid.
  destruct (valid_date_bounds _ _ _ Hvalid) as (Hy & Hm & Hd).
  unfold strptime. rewrite (proj2 compile_formats).
  unfold strftime_iso. cbn [year month day].
  change (zero_pad 4 y EmptyString)
    with (String (digit_char (y / 10 / 10 / 10))
            (String (digit_char (y / 10 / 10))
               (String (digit_char (y / 10))
                  (String (digit_char y) EmptyString)))).
  cbn [append].
  rewrite year_matches by apply digit_char_is_digit.
  rewrite literal_matches.
  rewrite month_matches by exact Hm.
  destruct (day_matches d
              {| f_year := f_year (record_group Dir_Y
                     (String (digit_char (y / 10 / 10 / 10))
                        (String (digit_char (y / 10 / 10))
                           (String (digit_char (y / 10))
                              (String (digit_char y) EmptyString)))) found0);
                 f_month := m;
                 f_day := f_day (record_group Dir_Y
                     (String (digit_char (y / 10 / 10 / 10))
                        (String (digit_char (y / 10 / 10))
                           (String (digit_char (y / 10))
                              (String (digit_char y) EmptyString)))) found0) |}
              Hd) as (more & ->).
  cbn [f_year f_month f_day record_group].
  change (String (digit_char (y / 10 / 10 / 10))
            (String (digit_char (y / 10 / 10))
               (String (digit_char (y / 10))
                  (String (digit_char y) EmptyString))))
    with (zero_pad 4 y EmptyString).
  rewrite int_zero_pad4 by lia.
  rewrite Hvalid. reflexivity.
Qed.

Lemma strftime_iso_shape dt : iso_shape (strftime_iso dt) = true.
Proof.
  unfold strftime_iso. cbn [zero_pad append iso_shape forallb].
  rewrite !digit_char_is_digit. reflexivity.
Qed.

Lemma year_text_four y : 1000 <= y -> year_text y = zero_pad 4 y EmptyString.
Proof.
  intros Hy. unfold year_text.
  destruct (Z.ltb_spec y 10); [lia |].
  destruct (Z.ltb_spec y 100); [lia |].
  destruct (Z.ltb_spec y 1000); [lia | reflexivity].
Qed.

(** From the year 1000 on [strftime] prints the text [YYYY-MM-DD]. *)
Lemma strftime_four dt : 1000 <= year dt -> strftime dt = strftime_iso dt.
Proof.
  intros Hy. unfold strftime, strftime_iso. rewrite year_text_four by exact Hy.
  reflexivity.
Qed.

Lemma normalize_date_iso dt :
  valid_date (year dt) (month dt) (day dt) = true ->
  normalize_date (strftime_iso dt) = strftime dt.
Proof.
  intros Hvalid. unfold normalize_date, date_formats. cbn [try_formats].
  rewrite (strptime_iso_first dt Hvalid), (strptime_iso_second dt Hvalid).
  reflexivity.
Qed.

End DateFacts.

(** What [normalize_date] answers, format by format: the order of the
    eight formats; the text of the first format that parses, rendered by
    [strftime], which from the year 1000 on has the shape [YYYY-MM-DD];
    [01/02/2023], which both the first and the third format parse, comes
    out as the second of January; a text that no format parses comes back
    unchanged. *)
Lemma first_parse_is_rendered :
  date_formats =
    [ "%m/%d/%Y"; "%Y-%m-%d"; "%d/%m/%Y"; "%m-%d-%Y";
      "%d-%m-%Y"; "%m/%d/%y"; "%d/%m/%y"; "%Y/%m/%d" ] /\
  (forall date_str pre fmt post dt,
      date_formats = pre ++ fmt :: post ->
      (forall f, In f pre -> Strptime.strptime date_str f = None) ->
      Strptime.strptime date_str fmt = Some dt ->
      normalize_date date_str = Strptime.strftime dt /\
      (1000 <= Strptime.year dt ->
       normalize_date date_str = Strptime.strftime_iso dt /\
       iso_shape (normalize_date date_str) = true)) /\
  (forall date_str,
      (forall f, In f date_formats -> Strptime.strptime date_str f = None) ->
      normalize_date date_str = date_str) /\
  Strptime.strptime "01/02/2023" "%m/%d/%Y"
  = Some {| Strptime.year := 2023; Strptime.month := 1; Strptime.day := 2 |} /\
  Strptime.strptime "01/02/2023" "%d/%m/%Y"
  = Some {| Strptime.year := 2023; Strptime.month := 2; Strptime.day := 1 |} /\
  normalize_date "01/02/2023" = "2023-01-02".
Proof.
  split; [reflexivity |].
  split; [| split; [| repeat split]].
  - intros date_str pre fmt post dt Hsplit Hpre Hfmt.
    assert (H : normalize_date date_str = Strptime.strftime dt)
      by exact (try_formats_first _ _ _ _ _ _ Hsplit Hpre Hfmt).
    split; [exact H |]. intros Hy.
    rewrite H, (DateFacts.strftime_four dt Hy).
    split; [reflexivity | apply DateFacts.strftime_iso_shape].
  - intros date_str. apply try_formats_none.
Qed.

(** C4. [normalize_date] returns the first successful parse rendered as
    [YYYY-MM-DD], and its docstring promises an ISO formatted date; for a
    year below 1000 it does not.  The first format reads [01/02/0099] as
    the second of January of the year 99, and the rendering prints that
    year without its leading zeros: the answer is [99-01-02], which has
    not the shape [YYYY-MM-DD], where the text of that day is
    [0099-01-02]. *)
Theorem year_below_1000_is_not_padded :
  Strptime.strptime "01/02/0099" "%m/%d/%Y"
  = Some {| Strptime.year := 99; Strptime.month := 1; Strptime.day := 2 |} /\
  normalize_date "01/02/0099" = "99-01-02" /\
  iso_shape (normalize_date "01/02/0099") = false /\
  Strptime.strftime_iso
    {| Strptime.year := 99; Strptime.month := 1; Strptime.day := 2 |}
  = "0099-01-02".
Proof. repeat split. Qed.

(** ** The merchant extractor *)

(** C7. On [POS Purchase At Starbucks 123456789 04/12] the extractor
    drops the two phrases, the nine-digit number and the date fragment
    and returns [Starbucks]: a capitalized word with no run of six digits,
    no two-digit/two-digit fragment and none of the phrases in it. *)
Theorem starbucks_example :
  let description := "POS Purchase At Starbucks 123456789 04/12" in
  let stage1 := Regex.sub_delete (Regex.match_phrases boilerplate)
                                 (PyStr.lower description) in
  let stage2 := Regex.sub_delete Regex.match_long_number stage1 in
  let stage3 := Regex.sub_delete Regex.match_short_date stage2 in
  stage1 = " starbucks 123456789 04/12" /\
  stage2 = " starbucks  04/12" /\
  stage3 = " starbucks  " /\
  clean_description description = "starbucks" /\
  extract_merchant description = "Starbucks" /\
  PyStr.join " " (map PyStr.capitalize (PyStr.split (extract_merchant description)))
  = extract_merchant description /\
  has_long_number (extract_merchant description) = false /\
  has_short_date (extract_merchant description) = false /\
  has_boilerplate (extract_merchant description) = false.
Proof. cbv zeta. repeat split. Qed.




(** * Further properties *)

(** ** Dates in the supported formats *)

Local Open Scope string_scope.
Local Open Scope Z_scope.

Module FormatFacts.
Import PyStr Strptime DateFacts.

Lemma two_digits_chars n :
  two_digits n = String (digit_char (n / 10)) (String (digit_char n) EmptyString).
Proof. reflexivity. Qed.

Lemma four_digits_chars n :
  four_digits n
  = String (digit_char (n / 10 / 10 / 10))
      (String (digit_char (n / 10 / 10))
         (String (digit_char (n / 10)) (String (digit_char n) EmptyString))).
Proof. reflexivity. Qed.

Lemma digit_char_not_dash n : Ascii.eqb (digit_char n) "-" = false.
Proof.
  apply negb_true_iff. apply (digit_char_forall (fun c => negb (Ascii.eqb c "-"))).
  reflexivity.
Qed.

Lemma digit_char_not_sep n c : is_sep c -> Ascii.eqb (digit_char n) c = false.
Proof.
  intros [-> | ->]; [apply digit_char_not_slash | apply digit_char_not_dash].
Qed.

(** A month or a day followed by a separator does not match a text
    whose second and third characters are not that separator. *)
Lemma field_sep_rejects D c items a b c' rest f :
  D = Dir_m \/ D = Dir_d ->
  Ascii.eqb b c = false ->
  Ascii.eqb c' c = false ->
  regex_match (Directive D :: Literal c :: items)
              (String a (String b (String c' rest))) f = [].
Proof.
  intros [-> | ->] Hb Hc; simpl; rewrite ?Hb, ?Hc;
    repeat match goal with
           | |- context [if ?x then _ else _] =>
               destruct x; simpl; rewrite ?Hb, ?Hc
           end; reflexivity.
Qed.

Lemma literal_rejects c items x rest f :
  Ascii.eqb x c = false ->
  regex_match (Literal c :: items) (String x rest) f = [].
Proof. intros H. cbn [regex_match]. rewrite H. reflexivity. Qed.

(** A four-digit year does not match when the third character is no
    digit, nor when fewer than four characters are left. *)
Lemma year_rejects_third items a b c rest f :
  is_digit c = false ->
  regex_match (Directive Dir_Y :: items) (String a (String b (String c rest))) f = [].
Proof.
  intros Hc. simpl. rewrite Hc.
  destruct (is_digit a); [destruct (is_digit b) |]; reflexivity.
Qed.

Lemma year_rejects_short items a b f :
  regex_match (Directive Dir_Y :: items) (String a (String b EmptyString)) f = [].
Proof.
  simpl. destruct (is_digit a); [destruct (is_digit b) |]; reflexivity.
Qed.

Lemma month_sep m c items rest f :
  1 <= m <= 12 -> is_sep c ->
  regex_match (Directive Dir_m :: Literal c :: items)
              (two_digits m ++ String c rest) f
  = regex_match items rest
      {| f_year := f_year f; f_month := m; f_day := f_day f |}.
Proof.
  intros Hm Hc.
  assert (Hk : exists k, (k < 12)%nat /\ m = 1 + Z.of_nat k).
  { exists (Z.to_nat (m - 1)). lia. }
  destruct Hk as (k & Hk & ->).
  destruct Hc as [-> | ->];
    do 12 (destruct k as [| k]; [simpl; rewrite ?app_nil_r; reflexivity |]); lia.
Qed.

Lemma day_sep d c items rest f :
  1 <= d <= 31 -> is_sep c ->
  regex_match (Directive Dir_d :: Literal c :: items)
              (two_digits d ++ String c rest) f
  = regex_match items rest
      {| f_year := f_year f; f_month := f_month f; f_day := d |}.
Proof.
  intros Hd Hc.
  assert (Hk : exists k, (k < 31)%nat /\ d = 1 + Z.of_nat k).
  { exists (Z.to_nat (d - 1)). lia. }
  destruct Hk as (k & Hk & ->).
  destruct Hc as [-> | ->];
    do 31 (destruct k as [| k]; [simpl; rewrite ?app_nil_r; reflexivity |]); lia.
Qed.

Lemma month_rejects_day d c items rest f :
  13 <= d <= 31 -> is_sep c ->
  regex_match (Directive Dir_m :: Literal c :: items) (two_digits d ++ rest) f = [].
Proof.
  intros Hd Hc.
  assert (Hk : exists k, (k < 19)%nat /\ d = 13 + Z.of_nat k).
  { exists (Z.to_nat (d - 13)). lia. }
  destruct Hk as (k & Hk & ->).
  destruct Hc as [-> | ->];
    do 19 (destruct k as [| k]; [reflexivity |]); lia.
Qed.

Lemma day_last d rest f :
  1 <= d <= 31 ->
  exists more,
    regex_match [Directive Dir_d] (two_digits d ++ rest) f
    = ({| f_year := f_year f; f_month := f_month f; f_day := d |}, rest) :: more.
Proof.
  intros Hd.
  assert (Hk : exists k, (k < 31)%nat /\ d = 1 + Z.of_nat k).
  { exists (Z.to_nat (d - 1)). lia. }
  destruct Hk as (k & Hk & ->).
  do 31 (destruct k as [| k]; [simpl; eexists; reflexivity |]).
  lia.
Qed.

Lemma int_two_digits n : 0 <= n <= 99 -> int (two_digits n) = n.
Proof.
  intros Hn. unfold int, strip. rewrite two_digits_chars.
  simpl lstrip. rewrite !digit_char_not_space.
  simpl rstrip. rewrite !digit_char_not_space.
  cbn [int_digits]. rewrite !digit_char_value.
  Z.div_mod_to_equations. lia.
Qed.

End FormatFacts.

Module FormatRuns.
Import PyStr Strptime DateFacts FormatFacts.

Lemma year_only y f :
  0 <= y <= 9999 ->
  regex_match [Directive Dir_Y] (four_digits y) f
  = [({| f_year := Some y; f_month := f_month f; f_day := f_day f |}, EmptyString)].
Proof.
  intros Hy. rewrite four_digits_chars.
  rewrite year_matches by apply digit_char_is_digit.
  rewrite <- four_digits_chars. cbn [regex_match record_group].
  unfold four_digits. rewrite int_zero_pad4 by exact Hy. reflexivity.
Qed.

Lemma short_year_only yy f :
  0 <= yy <= 99 ->
  regex_match [Directive Dir_y] (two_digits yy) f
  = [({| f_year := Some (pivot_year yy); f_month := f_month f; f_day := f_day f |},
      EmptyString)].
Proof.
  intros Hy. rewrite two_digits_chars.
  cbn [regex_match alternatives match_alts match_seq flat_map fst snd].
  rewrite !digit_char_is_digit. cbn [flat_map fst snd app record_group].
  rewrite <- two_digits_chars. rewrite int_two_digits by exact Hy.
  reflexivity.
Qed.

Lemma append_assoc (a b c : string) : ((a ++ b) ++ c = a ++ (b ++ c))%string.
Proof. induction a as [| x a IH]; simpl; [reflexivity | rewrite IH; reflexivity]. Qed.

Lemma compile_1 : compile "%m/%d/%Y" = Some [Directive Dir_m; Literal "/"; Directive Dir_d; Literal "/"; Directive Dir_Y].
Proof. reflexivity. Qed.
Lemma compile_2 : compile "%Y-%m-%d" = Some [Directive Dir_Y; Literal "-"; Directive Dir_m; Literal "-"; Directive Dir_d].
Proof. reflexivity. Qed.
Lemma compile_3 : compile "%d/%m/%Y" = Some [Directive Dir_d; Literal "/"; Directive Dir_m; Literal "/"; Directive Dir_Y].
Proof. reflexivity. Qed.
Lemma compile_4 : compile "%m-%d-%Y" = Some [Directive Dir_m; Literal "-"; Directive Dir_d; Literal "-"; Directive Dir_Y].
Proof. reflexivity. Qed.
Lemma compile_5 : compile "%d-%m-%Y" = Some [Directive Dir_d; Literal "-"; Directive Dir_m; Literal "-"; Directive Dir_Y].
Proof. reflexivity. Qed.
Lemma compile_6 : compile "%m/%d/%y" = Some [Directive Dir_m; Literal "/"; Directive Dir_d; Literal "/"; Directive Dir_y].
Proof. reflexivity. Qed.
Lemma compile_7 : compile "%d/%m/%y" = Some [Directive Dir_d; Literal "/"; Directive Dir_m; Literal "/"; Directive Dir_y].
Proof. reflexivity. Qed.
Lemma compile_8 : compile "%Y/%m/%d" = Some [Directive Dir_Y; Literal "/"; Directive Dir_m; Literal "/"; Directive Dir_d].
Proof. reflexivity. Qed.

Ltac side :=
  first [ apply digit_char_not_slash | apply digit_char_not_dash
        | apply digit_char_is_digit | reflexivity
        | left; reflexivity | right; reflexivity | lia ].

(** Opens [strptime] on one of the eight formats. *)
Ltac open_format :=
  unfold strptime;
  rewrite ?compile_1, ?compile_2, ?compile_3, ?compile_4,
          ?compile_5, ?compile_6, ?compile_7, ?compile_8;
  cbn [append].

(** Spells out the leading field of the text, character by character. *)
Ltac spell_two n :=
  rewrite (two_digits_chars n); cbn [append].
Ltac spell_four n :=
  rewrite (four_digits_chars n); cbn [append].

Ltac bounds H :=
  let Hy := fresh "Hy" in
  let Hm := fresh "Hm" in
  let Hd := fresh "Hd" in
  destruct (valid_date_bounds _ _ _ H) as (Hy & Hm & Hd).

(** Closes a successful run: the date found is the valid one. *)
Ltac accept H := cbn [f_year f_month f_day]; rewrite H; reflexivity.

(** *** month/day/year *)

Lemma us_1 y m d :
  valid_date y m d = true ->
  strptime (two_digits m ++ "/" ++ two_digits d ++ "/" ++ four_digits y) "%m/%d/%Y"
  = Some {| year := y; month := m; day := d |}.
Proof.
  intros H. bounds H. open_format.
  rewrite month_sep by side. rewrite day_sep by side.
  rewrite year_only by lia. accept H.
Qed.

(** *** a day above 12 where a month is expected *)

Lemma day_rejected_as_month d rest fmt :
  13 <= d <= 31 ->
  fmt = "%m/%d/%Y" \/ fmt = "%m-%d-%Y" \/ fmt = "%m/%d/%y" ->
  strptime (two_digits d ++ rest) fmt = None.
Proof.
  intros Hd [-> | [-> | ->]]; open_format;
    rewrite month_rejects_day by side; reflexivity.
Qed.

(** *** day/month/year with a day above 12 *)

Lemma two_slash_2 n rest :
  strptime (two_digits n ++ "/" ++ rest) "%Y-%m-%d" = None.
Proof.
  open_format. spell_two n. rewrite year_rejects_third by reflexivity. reflexivity.
Qed.

Lemma two_dash_2 n rest :
  strptime (two_digits n ++ "-" ++ rest) "%Y-%m-%d" = None.
Proof.
  open_format. spell_two n. rewrite year_rejects_third by reflexivity. reflexivity.
Qed.

Lemma day_first_3 y m d :
  valid_date y m d = true ->
  strptime (two_digits d ++ "/" ++ two_digits m ++ "/" ++ four_digits y) "%d/%m/%Y"
  = Some {| year := y; month := m; day := d |}.
Proof.
  intros H. bounds H. open_format.
  rewrite day_sep by side. rewrite month_sep by side.
  rewrite year_only by lia. accept H.
Qed.

(** *** the two dash formats *)

Lemma two_dash_slash_format n rest fmt :
  fmt = "%m/%d/%Y" \/ fmt = "%d/%m/%Y" \/ fmt = "%m/%d/%y" \/ fmt = "%d/%m/%y" ->
  strptime (two_digits n ++ "-" ++ rest) fmt = None.
Proof.
  intros [-> | [-> | [-> | ->]]]; open_format; spell_two n;
    rewrite field_sep_rejects by side; reflexivity.
Qed.

Lemma two_slash_dash_format n rest fmt :
  fmt = "%m-%d-%Y" \/ fmt = "%d-%m-%Y" ->
  strptime (two_digits n ++ "/" ++ rest) fmt = None.
Proof.
  intros [-> | ->]; open_format; spell_two n;
    rewrite field_sep_rejects by side; reflexivity.
Qed.

Lemma us_dash_4 y m d :
  valid_date y m d = true ->
  strptime (two_digits m ++ "-" ++ two_digits d ++ "-" ++ four_digits y) "%m-%d-%Y"
  = Some {| year := y; month := m; day := d |}.
Proof.
  intros H. bounds H. open_format.
  rewrite month_sep by side. rewrite day_sep by side.
  rewrite year_only by lia. accept H.
Qed.

Lemma day_first_dash_5 y m d :
  valid_date y m d = true ->
  strptime (two_digits d ++ "-" ++ two_digits m ++ "-" ++ four_digits y) "%d-%m-%Y"
  = Some {| year := y; month := m; day := d |}.
Proof.
  intros H. bounds H. open_format.
  rewrite day_sep by side. rewrite month_sep by side.
  rewrite year_only by lia. accept H.
Qed.

(** *** two-digit years *)

Lemma short_us_1 yy m d :
  1 <= m <= 12 -> 1 <= d <= 31 ->
  strptime (two_digits m ++ "/" ++ two_digits d ++ "/" ++ two_digits yy) "%m/%d/%Y"
  = None.
Proof.
  intros Hm Hd. open_format.
  rewrite month_sep by side. rewrite day_sep by side.
  spell_two yy. rewrite year_rejects_short. reflexivity.
Qed.

Lemma short_us_3 yy m d :
  1 <= m <= 12 -> 1 <= d <= 31 ->
  strptime (two_digits m ++ "/" ++ two_digits d ++ "/" ++ two_digits yy) "%d/%m/%Y"
  = None.
Proof.
  intros Hm Hd. open_format. rewrite day_sep by side.
  destruct (Z_le_gt_dec d 12) as [Hle | Hgt].
  - rewrite month_sep by side. spell_two yy. rewrite year_rejects_short. reflexivity.
  - rewrite month_rejects_day by side. reflexivity.
Qed.

Lemma short_us_6 yy m d :
  0 <= yy <= 99 ->
  valid_date (pivot_year yy) m d = true ->
  strptime (two_digits m ++ "/" ++ two_digits d ++ "/" ++ two_digits yy) "%m/%d/%y"
  = Some {| year := pivot_year yy; month := m; day := d |}.
Proof.
  intros Hyy H. bounds H. open_format.
  rewrite month_sep by side. rewrite day_sep by side.
  rewrite short_year_only by lia. accept H.
Qed.

Lemma short_day_first_3 yy m d :
  1 <= m <= 12 -> 1 <= d <= 31 ->
  strptime (two_digits d ++ "/" ++ two_digits m ++ "/" ++ two_digits yy) "%d/%m/%Y"
  = None.
Proof.
  intros Hm Hd. open_format.
  rewrite day_sep by side. rewrite month_sep by side.
  spell_two yy. rewrite year_rejects_short. reflexivity.
Qed.

Lemma short_day_first_7 yy m d :
  0 <= yy <= 99 ->
  valid_date (pivot_year yy) m d = true ->
  strptime (two_digits d ++ "/" ++ two_digits m ++ "/" ++ two_digits yy) "%d/%m/%y"
  = Some {| year := pivot_year yy; month := m; day := d |}.
Proof.
  intros Hyy H. bounds H. open_format.
  rewrite day_sep by side. rewrite month_sep by side.
  rewrite short_year_only by lia. accept H.
Qed.

(** *** texts that start with a four-digit year *)

Lemma four_field_format y rest fmt :
  fmt = "%m/%d/%Y" \/ fmt = "%d/%m/%Y" \/ fmt = "%m-%d-%Y" \/ fmt = "%d-%m-%Y" \/
  fmt = "%m/%d/%y" \/ fmt = "%d/%m/%y" ->
  strptime (four_digits y ++ rest) fmt = None.
Proof.
  intros [-> | [-> | [-> | [-> | [-> | ->]]]]]; open_format; spell_four y;
    rewrite field_sep_rejects by side; reflexivity.
Qed.

Lemma four_slash_2 y rest :
  strptime (four_digits y ++ "/" ++ rest) "%Y-%m-%d" = None.
Proof.
  open_format. spell_four y.
  rewrite year_matches by side. rewrite literal_rejects by side. reflexivity.
Qed.

Lemma four_dash_8 y rest :
  strptime (four_digits y ++ "-" ++ rest) "%Y/%m/%d" = None.
Proof.
  open_format. spell_four y.
  rewrite year_matches by side. rewrite literal_rejects by side. reflexivity.
Qed.

Lemma year_first_8 y m d :
  valid_date y m d = true ->
  strptime (four_digits y ++ "/" ++ two_digits m ++ "/" ++ two_digits d) "%Y/%m/%d"
  = Some {| year := y; month := m; day := d |}.
Proof.
  intros H. bounds H. open_format. spell_four y.
  rewrite year_matches by side. rewrite literal_matches.
  rewrite month_sep by side.
  unfold two_digits at 1.
  match goal with
  | |- context [regex_match [Directive Dir_d] _ ?f] =>
      destruct (day_matches d f ltac:(lia)) as (more & ->)
  end.
  cbn [f_year f_month f_day record_group].
  rewrite <- four_digits_chars. unfold four_digits.
  rewrite int_zero_pad4 by lia. rewrite H. reflexivity.
Qed.

(** *** a rendered date with something after it *)

Lemma iso_trailing_2 y m d c rest :
  valid_date y m d = true ->
  strptime (strftime_iso {| year := y; month := m; day := d |} ++ String c rest)
           "%Y-%m-%d" = None.
Proof.
  intros H. bounds H. unfold strftime_iso. cbn [year month day].
  fold (four_digits y). fold (two_digits m). fold (two_digits d).
  rewrite !append_assoc. open_format.
  spell_four y. rewrite year_matches by side. rewrite literal_matches.
  rewrite month_sep by side.
  match goal with
  | |- context [regex_match [Directive Dir_d] _ ?f] =>
      destruct (day_last d (String c rest) f ltac:(lia)) as (more & ->)
  end.
  reflexivity.
Qed.

End FormatRuns.

(** ** Dates rendered with a year below 1000 *)

Module RenderFacts.
Import PyStr Strptime DateFacts FormatFacts FormatRuns.

Lemma year_text_one y : 1 <= y < 10 -> year_text y = String (digit_char y) EmptyString.
Proof.
  intros Hy. unfold year_text.
  destruct (Z.ltb_spec y 10); [reflexivity | lia].
Qed.

Lemma year_text_two y : 10 <= y < 100 -> year_text y = two_digits y.
Proof.
  intros Hy. unfold year_text.
  destruct (Z.ltb_spec y 10); [lia |].
  destruct (Z.ltb_spec y 100); [reflexivity | lia].
Qed.

Lemma year_text_three y :
  100 <= y < 1000 ->
  year_text y
  = String (digit_char (y / 10 / 10))
      (String (digit_char (y / 10)) (String (digit_char y) EmptyString)).
Proof.
  intros Hy. unfold year_text.
  destruct (Z.ltb_spec y 10); [lia |].
  destruct (Z.ltb_spec y 100); [lia |].
  destruct (Z.ltb_spec y 1000); [reflexivity | lia].
Qed.

(** A four-digit year does not match when the second or the fourth
    character is no digit. *)
Lemma year_rejects_second items a b rest f :
  is_digit b = false ->
  regex_match (Directive Dir_Y :: items) (String a (String b rest)) f = [].
Proof.
  intros Hb. simpl. rewrite Hb. destruct (is_digit a); reflexivity.
Qed.

Lemma year_rejects_fourth items a b c d rest f :
  is_digit d = false ->
  regex_match (Directive Dir_Y :: items)
              (String a (String b (String c (String d rest)))) f = [].
Proof.
  intros Hd. simpl. rewrite Hd.
  destruct (is_digit a); [destruct (is_digit b); [destruct (is_digit c) |] |];
    reflexivity.
Qed.

(** A month or a day followed by a slash does not match a text whose
    second character is a dash. *)
Lemma dash_second_rejects D items a rest f :
  D = Dir_m \/ D = Dir_d ->
  regex_match (Directive D :: Literal "/" :: items) (String a (String "-" rest)) f
  = [].
Proof.
  intros [-> | ->]; simpl;
    repeat match goal with
           | |- context [if ?x then _ else _] => destruct x; simpl
           end; reflexivity.
Qed.

(** A month or a day on one digit, followed by its separator. *)
Lemma one_digit_month y c items rest f :
  1 <= y <= 9 -> is_sep c ->
  regex_match (Directive Dir_m :: Literal c :: items)
              (String (digit_char y) (String c rest)) f
  = regex_match items rest
      {| f_year := f_year f; f_month := y; f_day := f_day f |}.
Proof.
  intros Hy Hc.
  assert (Hk : exists k, (k < 9)%nat /\ y = 1 + Z.of_nat k).
  { exists (Z.to_nat (y - 1)). lia. }
  destruct Hk as (k & Hk & ->).
  destruct Hc as [-> | ->];
    do 9 (destruct k as [| k]; [simpl; rewrite ?app_nil_r; reflexivity |]); lia.
Qed.

Lemma one_digit_day y c items rest f :
  1 <= y <= 9 -> is_sep c ->
  regex_match (Directive Dir_d :: Literal c :: items)
              (String (digit_char y) (String c rest)) f
  = regex_match items rest
      {| f_year := f_year f; f_month := f_month f; f_day := y |}.
Proof.
  intros Hy Hc.
  assert (Hk : exists k, (k < 9)%nat /\ y = 1 + Z.of_nat k).
  { exists (Z.to_nat (y - 1)). lia. }
  destruct Hk as (k & Hk & ->).
  destruct Hc as [-> | ->];
    do 9 (destruct k as [| k]; [simpl; rewrite ?app_nil_r; reflexivity |]); lia.
Qed.

(** Two digits above 12 are no month, and above 31 no day. *)
Lemma month_rejects_above n c items rest f :
  13 <= n <= 99 -> is_sep c ->
  regex_match (Directive Dir_m :: Literal c :: items) (two_digits n ++ rest) f = [].
Proof.
  intros Hn Hc.
  assert (Hk : exists k, (k < 87)%nat /\ n = 13 + Z.of_nat k).
  { exists (Z.to_nat (n - 13)). lia. }
  destruct Hk as (k & Hk & ->).
  destruct Hc as [-> | ->];
    do 87 (destruct k as [| k]; [reflexivity |]); lia.
Qed.

Lemma day_rejects_above n c items rest f :
  32 <= n <= 99 -> is_sep c ->
  regex_match (Directive Dir_d :: Literal c :: items) (two_digits n ++ rest) f = [].
Proof.
  intros Hn Hc.
  assert (Hk : exists k, (k < 68)%nat /\ n = 32 + Z.of_nat k).
  { exists (Z.to_nat (n - 32)). lia. }
  destruct Hk as (k & Hk & ->).
  destruct Hc as [-> | ->];
    do 68 (destruct k as [| k]; [reflexivity |]); lia.
Qed.

Lemma strftime_text y m d :
  strftime {| year := y; month := m; day := d |}
  = year_text y ++ "-" ++ two_digits m ++ "-" ++ two_digits d.
Proof. reflexivity. Qed.

(** *** a year on three digits *)

Lemma three_digit_year_unread y m d fmt :
  100 <= y < 1000 -> In fmt date_formats ->
  strptime (strftime {| year := y; month := m; day := d |}) fmt = None.
Proof.
  intros Hy Hin. rewrite strftime_text. rewrite year_text_three by exact Hy.
  simpl in Hin.
  repeat (destruct Hin as [<- | Hin]; [open_format | ]); try contradiction.
  all: first [ rewrite field_sep_rejects by side
             | rewrite year_rejects_fourth by reflexivity ]; reflexivity.
Qed.

(** *** a year on two digits *)

Lemma two_digit_year_unread y m d fmt :
  10 <= y < 100 -> 1 <= m <= 12 -> 1 <= d <= 31 -> In fmt date_formats ->
  strptime (strftime {| year := y; month := m; day := d |}) fmt = None.
Proof.
  intros Hy Hm Hd Hin. rewrite strftime_text. rewrite year_text_two by exact Hy.
  simpl in Hin.
  destruct Hin as [<- | [<- | [<- | [<- | [<- | [<- | [<- | [<- | []]]]]]]]].
  - apply two_dash_slash_format. tauto.
  - apply two_dash_2.
  - apply two_dash_slash_format. tauto.
  - open_format. destruct (Z_le_gt_dec y 12).
    + rewrite month_sep by side. rewrite day_sep by side.
      spell_two d. rewrite year_rejects_short. reflexivity.
    + rewrite month_rejects_above by side. reflexivity.
  - open_format. destruct (Z_le_gt_dec y 31).
    + rewrite day_sep by side. rewrite month_sep by side.
      spell_two d. rewrite year_rejects_short. reflexivity.
    + rewrite day_rejects_above by side. reflexivity.
  - apply two_dash_slash_format. tauto.
  - apply two_dash_slash_format. tauto.
  - open_format. spell_two y. rewrite year_rejects_third by reflexivity. reflexivity.
Qed.

(** *** a year on one digit *)

Lemma one_digit_year_unread y m d fmt :
  1 <= y < 10 -> 1 <= m <= 12 -> 1 <= d <= 31 -> In fmt date_formats ->
  strptime (strftime {| year := y; month := m; day := d |}) fmt = None.
Proof.
  intros Hy Hm Hd Hin. rewrite strftime_text. rewrite year_text_one by exact Hy.
  simpl in Hin.
  destruct Hin as [<- | [<- | [<- | [<- | [<- | [<- | [<- | [<- | []]]]]]]]];
    open_format.
  - rewrite dash_second_rejects by side. reflexivity.
  - rewrite year_rejects_second by reflexivity. reflexivity.
  - rewrite dash_second_rejects by side. reflexivity.
  - rewrite one_digit_month by side. rewrite day_sep by side.
    spell_two d. rewrite year_rejects_short. reflexivity.
  - rewrite one_digit_day by side. rewrite month_sep by side.
    spell_two d. rewrite year_rejects_short. reflexivity.
  - rewrite dash_second_rejects by side. reflexivity.
  - rewrite dash_second_rejects by side. reflexivity.
  - rewrite year_rejects_second by reflexivity. reflexivity.
Qed.

(** A rendered date of a year below 1000 is read by none of the formats. *)
Lemma short_year_unread dt fmt :
  valid_date (year dt) (month dt) (day dt) = true ->
  year dt < 1000 -> In fmt date_formats ->
  strptime (strftime dt) fmt = None.
Proof.
  destruct dt as [y m d]. cbn [year month day]. intros H Hlt Hin.
  bounds H.
  destruct (Z_lt_ge_dec y 10); [apply one_digit_year_unread; assumption || lia |].
  destruct (Z_lt_ge_dec y 100); [apply two_digit_year_unread; assumption || lia |].
  apply three_digit_year_unread; assumption || lia.
Qed.

(** What [normalize_date] rendered it renders the same again: from the
    year 1000 on the second format reads it back, below it no format reads
    it and it passes through. *)
Lemma normalize_date_strftime dt :
  valid_date (year dt) (month dt) (day dt) = true ->
  normalize_date (strftime dt) = strftime dt.
Proof.
  intros H. destruct (Z_lt_ge_dec (year dt) 1000) as [Hlt | Hge].
  - apply try_formats_none. intros f Hin. apply short_year_unread; assumption.
  - rewrite (strftime_four dt) by lia. rewrite normalize_date_iso by exact H.
    apply strftime_four. lia.
Qed.

End RenderFacts.

(** A normalized date is a fixed point of the normalizer. *)
Lemma normalize_date_fixed (date_str : string) :
  normalize_date (normalize_date date_str) = normalize_date date_str.
Proof.
  destruct (try_formats_cases date_formats date_str)
    as [H | (fmt & dt & _ & Hfmt & H)];
    fold (normalize_date date_str) in H; rewrite H.
  - exact H.
  - apply RenderFacts.normalize_date_strftime.
    exact (DateFacts.strptime_valid _ _ _ Hfmt).
Qed.

(** C10. [normalize_date] is idempotent: a date it has rendered it renders
    the same again (from the year 1000 on the first format rejects it and
    the second reads it back to the same day; a year below 1000 is printed
    on fewer than four digits, no format reads it and it passes through),
    and a text it left unchanged it leaves unchanged again. *)
Theorem normalize_date_idempotent (date_str : string) :
  normalize_date (normalize_date date_str) = normalize_date date_str.
Proof. exact (normalize_date_fixed date_str). Qed.

(** ** Dates as they are written *)

Lemma small_day_month_valid y a b :
  1 <= y <= 9999 -> 1 <= a <= 12 -> 1 <= b <= 12 ->
  Strptime.valid_date y a b = true.
Proof.
  intros Hy Ha Hb. unfold Strptime.valid_date.
  rewrite !andb_true_iff, !Z.leb_le.
  assert (28 <= Strptime.days_in_month y a).
  { unfold Strptime.days_in_month.
    repeat match goal with
           | |- context [match ?x with _ => _ end] => destruct x
           end; lia. }
  lia.
Qed.

(** Runs [normalize_date] format by format with the results at hand. *)
Ltac run_formats :=
  unfold normalize_date, date_formats; cbn [try_formats].

Lemma normalize_month_first_slash y m d :
  Strptime.valid_date y m d = true ->
  normalize_date (two_digits m ++ "/" ++ two_digits d ++ "/" ++ four_digits y)
  = Strptime.strftime
      {| Strptime.year := y; Strptime.month := m; Strptime.day := d |}.
Proof.
  intros H. run_formats. rewrite (FormatRuns.us_1 y m d H). reflexivity.
Qed.

Lemma normalize_month_first_dash y m d :
  Strptime.valid_date y m d = true ->
  normalize_date (two_digits m ++ "-" ++ two_digits d ++ "-" ++ four_digits y)
  = Strptime.strftime
      {| Strptime.year := y; Strptime.month := m; Strptime.day := d |}.
Proof.
  intros H. run_formats.
  rewrite (FormatRuns.two_dash_slash_format m _ "%m/%d/%Y") by tauto.
  rewrite FormatRuns.two_dash_2.
  rewrite (FormatRuns.two_dash_slash_format m _ "%d/%m/%Y") by tauto.
  rewrite (FormatRuns.us_dash_4 y m d H). reflexivity.
Qed.

(** Either a format parses the text, to a day of the calendar, and the
    answer is that day rendered, or no format parses it and the answer is
    the text. *)
Lemma try_formats_split formats date_str :
  (exists fmt dt,
      In fmt formats /\
      Strptime.strptime date_str fmt = Some dt /\
      try_formats formats date_str = Strptime.strftime dt) \/
  ((forall f, In f formats -> Strptime.strptime date_str f = None) /\
   try_formats formats date_str = date_str).
Proof.
  induction formats as [| f rest IH]; simpl.
  - right. split; [intros f [] | reflexivity].
  - destruct (Strptime.strptime date_str f) as [dt |] eqn:Hf.
    + left. exists f, dt. repeat split; auto.
    + destruct IH as [(fmt & dt & Hin & Hfmt & H) | (Hnone & H)].
      * left. exists fmt, dt. repeat split; auto.
      * right. split; [| exact H].
        intros f' [<- | Hin]; [exact Hf | apply Hnone; exact Hin].
Qed.

(** X2. A day of the calendar written month/day/year, month-day-year,
    year-month-day or year/month/day, with two digits for month and day
    and four for the year, is normalized to that day as [strftime] prints
    it: from the year 1000 on, the text [YYYY-MM-DD]. *)
Theorem month_first_and_year_first_dates (y m d : Z) :
  Strptime.valid_date y m d = true ->
  let dt := {| Strptime.year := y; Strptime.month := m; Strptime.day := d |} in
  let out := Strptime.strftime dt in
  normalize_date (two_digits m ++ "/" ++ two_digits d ++ "/" ++ four_digits y) = out /\
  normalize_date (two_digits m ++ "-" ++ two_digits d ++ "-" ++ four_digits y) = out /\
  normalize_date (four_digits y ++ "-" ++ two_digits m ++ "-" ++ two_digits d) = out /\
  normalize_date (four_digits y ++ "/" ++ two_digits m ++ "/" ++ two_digits d) = out /\
  (1000 <= y -> out = Strptime.strftime_iso dt).
Proof.
  intros H dt out. repeat split.
  - apply normalize_month_first_slash. exact H.
  - apply normalize_month_first_dash. exact H.
  - apply (DateFacts.normalize_date_iso dt H).
  - run_formats.
    rewrite (FormatRuns.four_field_format y _ "%m/%d/%Y") by tauto.
    rewrite FormatRuns.four_slash_2.
    rewrite (FormatRuns.four_field_format y _ "%d/%m/%Y") by tauto.
    rewrite (FormatRuns.four_field_format y _ "%m-%d-%Y") by tauto.
    rewrite (FormatRuns.four_field_format y _ "%d-%m-%Y") by tauto.
    rewrite (FormatRuns.four_field_format y _ "%m/%d/%y") by tauto.
    rewrite (FormatRuns.four_field_format y _ "%d/%m/%y") by tauto.
    rewrite (FormatRuns.year_first_8 y m d H). reflexivity.
  - intros Hy. apply (DateFacts.strftime_four dt Hy).
Qed.

(** X3. Written day/month/year or day-month-year, a day of the calendar
    whose day of the month is above 12 is normalized to that day as
    [strftime] prints it (from the year 1000 on, the text [YYYY-MM-DD]):
    the month-first formats reject it and the day-first format reads
    it. *)
Theorem day_first_dates_above_12 (y m d : Z) :
  Strptime.valid_date y m d = true ->
  13 <= d ->
  let dt := {| Strptime.year := y; Strptime.month := m; Strptime.day := d |} in
  let out := Strptime.strftime dt in
  normalize_date (two_digits d ++ "/" ++ two_digits m ++ "/" ++ four_digits y) = out /\
  normalize_date (two_digits d ++ "-" ++ two_digits m ++ "-" ++ four_digits y) = out /\
  (1000 <= y -> out = Strptime.strftime_iso dt).
Proof.
  intros H Hd dt out.
  destruct (DateFacts.valid_date_bounds _ _ _ H) as (_ & _ & Hd31).
  split; [| split].
  - run_formats.
    rewrite (FormatRuns.day_rejected_as_month d _ "%m/%d/%Y") by (lia || tauto).
    rewrite FormatRuns.two_slash_2.
    rewrite (FormatRuns.day_first_3 y m d H). reflexivity.
  - run_formats.
    rewrite (FormatRuns.two_dash_slash_format d _ "%m/%d/%Y") by tauto.
    rewrite FormatRuns.two_dash_2.
    rewrite (FormatRuns.two_dash_slash_format d _ "%d/%m/%Y") by tauto.
    rewrite (FormatRuns.day_rejected_as_month d _ "%m-%d-%Y") by (lia || tauto).
    rewrite (FormatRuns.day_first_dash_5 y m d H). reflexivity.
  - intros Hy. apply (DateFacts.strftime_four dt Hy).
Qed.

(** X4. Written day/month/year or day-month-year with a day of the month
    up to 12, a date is read month first: the text of day [d] of month [m]
    comes out as day [m] of month [d], as [strftime] prints it (from the
    year 1000 on, the text [YYYY-MM-DD]). *)
Theorem day_first_dates_up_to_12_are_swapped (y m d : Z) :
  1 <= y <= 9999 -> 1 <= m <= 12 -> 1 <= d <= 12 ->
  let swapped := {| Strptime.year := y; Strptime.month := d; Strptime.day := m |} in
  let out := Strptime.strftime swapped in
  normalize_date (two_digits d ++ "/" ++ two_digits m ++ "/" ++ four_digits y) = out /\
  normalize_date (two_digits d ++ "-" ++ two_digits m ++ "-" ++ four_digits y) = out /\
  (1000 <= y -> out = Strptime.strftime_iso swapped).
Proof.
  intros Hy Hm Hd swapped out.
  pose proof (small_day_month_valid y d m Hy Hd Hm) as H.
  split; [| split].
  - apply normalize_month_first_slash. exact H.
  - apply normalize_month_first_dash. exact H.
  - intros Hy'. apply (DateFacts.strftime_four swapped Hy').
Qed.

(** X5. A two-digit year from 00 to 68 is read as 2000 to 2068 and one
    from 69 to 99 as 1969 to 1999, for month/day/year and, with a day
    above 12, for day/month/year. *)
Theorem two_digit_years_pivot_at_69 (yy m d : Z) :
  0 <= yy <= 99 ->
  Strptime.valid_date (pivot_year yy) m d = true ->
  let iso := Strptime.strftime_iso
               {| Strptime.year := pivot_year yy; Strptime.month := m;
                  Strptime.day := d |} in
  (1969 <= pivot_year yy <= 2068) /\
  normalize_date (two_digits m ++ "/" ++ two_digits d ++ "/" ++ two_digits yy) = iso /\
  (13 <= d ->
   normalize_date (two_digits d ++ "/" ++ two_digits m ++ "/" ++ two_digits yy) = iso).
Proof.
  intros Hyy H iso.
  destruct (DateFacts.valid_date_bounds _ _ _ H) as (_ & Hm & Hd).
  assert (Hp : 1969 <= pivot_year yy <= 2068).
  { unfold pivot_year. destruct (yy <=? 68) eqn:Hp;
      [apply Z.leb_le in Hp | apply Z.leb_gt in Hp]; lia. }
  split; [exact Hp | split].
  - run_formats.
    rewrite (FormatRuns.short_us_1 yy m d Hm Hd).
    rewrite FormatRuns.two_slash_2.
    rewrite (FormatRuns.short_us_3 yy m d Hm Hd).
    rewrite (FormatRuns.two_slash_dash_format m _ "%m-%d-%Y") by tauto.
    rewrite (FormatRuns.two_slash_dash_format m _ "%d-%m-%Y") by tauto.
    rewrite (FormatRuns.short_us_6 yy m d Hyy H).
    apply DateFacts.strftime_four. cbn [Strptime.year]. lia.
  - intros Hd13. run_formats.
    rewrite (FormatRuns.day_rejected_as_month d _ "%m/%d/%Y") by (lia || tauto).
    rewrite FormatRuns.two_slash_2.
    rewrite (FormatRuns.short_day_first_3 yy m d Hm Hd).
    rewrite (FormatRuns.two_slash_dash_format d _ "%m-%d-%Y") by tauto.
    rewrite (FormatRuns.two_slash_dash_format d _ "%d-%m-%Y") by tauto.
    rewrite (FormatRuns.day_rejected_as_month d _ "%m/%d/%y") by (lia || tauto).
    rewrite (FormatRuns.short_day_first_7 yy m d Hyy H).
    apply DateFacts.strftime_four. cbn [Strptime.year]. lia.
Qed.

(** X6. A rendered date with anything after it, a time of day for one,
    is not normalized: every format rejects it and the text comes back
    as it is. *)
Theorem date_with_trailing_text_is_unchanged (y m d : Z) (c : ascii) (rest : string) :
  Strptime.valid_date y m d = true ->
  let text := Strptime.strftime_iso
                {| Strptime.year := y; Strptime.month := m; Strptime.day := d |}
              ++ String c rest in
  normalize_date text = text.
Proof.
  intros H text. subst text. run_formats.
  rewrite (FormatRuns.iso_trailing_2 y m d c rest H).
  unfold Strptime.strftime_iso. cbn [Strptime.year Strptime.month Strptime.day].
  fold (four_digits y). rewrite !FormatRuns.append_assoc.
  rewrite (FormatRuns.four_field_format y _ "%m/%d/%Y") by tauto.
  rewrite (FormatRuns.four_field_format y _ "%d/%m/%Y") by tauto.
  rewrite (FormatRuns.four_field_format y _ "%m-%d-%Y") by tauto.
  rewrite (FormatRuns.four_field_format y _ "%d-%m-%Y") by tauto.
  rewrite (FormatRuns.four_field_format y _ "%m/%d/%y") by tauto.
  rewrite (FormatRuns.four_field_format y _ "%d/%m/%y") by tauto.
  rewrite FormatRuns.four_dash_8. reflexivity.
Qed.

(** X1. When [normalize_date] changes the text it was given, one of the
    eight formats has read that text as a day that exists in the calendar
    (year 1 to 9999, month 1 to 12, day within the length of the month,
    leap years counted), and the answer is that day as [strftime] prints
    it, in the shape [YYYY-MM-DD] from the year 1000 on. *)
Theorem normalized_date_is_text_or_calendar_day (date_str : string) :
  normalize_date date_str <> date_str ->
  exists fmt dt,
    In fmt date_formats /\
    Strptime.strptime date_str fmt = Some dt /\
    Strptime.valid_date (Strptime.year dt) (Strptime.month dt) (Strptime.day dt) = true /\
    normalize_date date_str = Strptime.strftime dt /\
    (1000 <= Strptime.year dt ->
     normalize_date date_str = Strptime.strftime_iso dt /\
     iso_shape (normalize_date date_str) = true).
Proof.
  intros Hchanged.
  destruct (try_formats_split date_formats date_str)
    as [(fmt & dt & Hin & Hfmt & H) | (_ & H)];
    fold (normalize_date date_str) in H; [| contradiction].
  exists fmt, dt. repeat split; try assumption.
  - exact (DateFacts.strptime_valid _ _ _ Hfmt).
  - rewrite H. apply DateFacts.strftime_four. assumption.
  - rewrite H, DateFacts.strftime_four by assumption.
    apply DateFacts.strftime_iso_shape.
Qed.


Local Close Scope Z_scope.
Local Open Scope string_scope.

(** ** Case mapping *)

Module CaseFacts.
Import PyStr.

Ltac by_cases c := destruct c as [[] [] [] [] [] [] [] []]; reflexivity.

Lemma lower_char_idempotent c : lower_char (lower_char c) = lower_char c.
Proof. by_cases c. Qed.

Lemma upper_char_idempotent c : upper_char (upper_char c) = upper_char c.
Proof. by_cases c. Qed.

Lemma lower_char_space c : is_space (lower_char c) = is_space c.
Proof. by_cases c. Qed.

Lemma upper_char_space c : is_space (upper_char c) = is_space c.
Proof. by_cases c. Qed.

Lemma lower_idempotent s : lower (lower s) = lower s.
Proof.
  unfold lower. induction s as [| c s IH]; cbn [map_chars]; [reflexivity |].
  rewrite lower_char_idempotent, IH. reflexivity.
Qed.

Lemma lower_length s : String.length (lower s) = String.length s.
Proof.
  unfold lower. induction s as [| c s IH]; cbn [map_chars String.length];
    [reflexivity | rewrite IH; reflexivity].
Qed.

Lemma capitalize_idempotent w : capitalize (capitalize w) = capitalize w.
Proof.
  destruct w as [| c w]; cbn [capitalize]; [reflexivity |].
  rewrite upper_char_idempotent, lower_idempotent. reflexivity.
Qed.

Lemma capitalize_length w : String.length (capitalize w) = String.length w.
Proof.
  destruct w as [| c w]; cbn [capitalize String.length];
    [reflexivity | rewrite lower_length; reflexivity].
Qed.

Lemma lower_no_space s : all_chars not_space (lower s) = all_chars not_space s.
Proof.
  unfold lower. induction s as [| c s IH]; cbn [map_chars all_chars]; [reflexivity |].
  unfold not_space at 1 3. rewrite lower_char_space, IH. reflexivity.
Qed.

Lemma capitalize_word w : is_word w = true -> is_word (capitalize w) = true.
Proof.
  destruct w as [| c w]; cbn [capitalize is_word all_chars]; [discriminate |].
  unfold not_space at 1 3. rewrite upper_char_space, lower_no_space. auto.
Qed.

End CaseFacts.

(** ** What the scan can answer *)

Lemma scan_categories_cases table description :
  scan_categories table description = "uncategorized" \/
  exists keywords,
    In (scan_categories table description, keywords) table /\
    any_keyword description keywords = true.
Proof.
  induction table as [| [c kws] rest IH]; simpl.
  - left. reflexivity.
  - destruct (any_keyword description kws) eqn:Hhit.
    + right. exists kws. auto.
    + destruct IH as [IH | (kws' & Hin & Hkw)]; [left; exact IH |].
      right. exists kws'. auto.
Qed.

Lemma scan_categories_not_income description :
  scan_categories categories description <> "income".
Proof.
  destruct (scan_categories_cases categories description) as [-> | (kws & Hin & Hhit)].
  - discriminate.
  - intros Heq. rewrite Heq in Hin. simpl in Hin.
    repeat (destruct Hin as [Hin | Hin]; [try discriminate |]).
    + injection Hin as <-. discriminate.
    + destruct Hin.
Qed.

Lemma categorize_income_iff description amount :
  categorize_transaction description amount = "income" <-> gt0 amount = true.
Proof.
  unfold categorize_transaction, categorize_with.
  destruct (gt0 amount); split; intros H; try reflexivity; try discriminate.
  exfalso. exact (scan_categories_not_income _ H).
Qed.

Lemma categorize_label description amount :
  In (categorize_transaction description amount) category_labels.
Proof.
  unfold categorize_transaction, categorize_with, category_labels.
  destruct (gt0 amount).
  - simpl. tauto.
  - destruct (scan_categories_cases categories (PyStr.lower description))
      as [-> | (kws & Hin & _)].
    + apply in_or_app. right. simpl. auto.
    + apply in_or_app. left. apply (in_map fst) in Hin. exact Hin.
Qed.

(** X7. The categorizer answers [income] exactly for the amounts above
    zero; its answer is always one of the eight labels of the table or
    [uncategorized]; and for an amount not above zero the scan gives the
    same with the income entry left out of the table. *)
Theorem income_exactly_for_positive_amounts (description : string) (amount : spec_float) :
  (categorize_transaction description amount = "income" <-> gt0 amount = true) /\
  In (categorize_transaction description amount) category_labels /\
  (gt0 amount = false ->
   categorize_transaction description amount
   = scan_categories (removelast categories) (PyStr.lower description)).
Proof.
  split; [apply categorize_income_iff |].
  split; [apply categorize_label |].
  intros Hamount. unfold categorize_transaction, categorize_with.
  rewrite Hamount. unfold categories. simpl.
  repeat match goal with
         | |- context [if ?x then _ else _] => destruct x; try reflexivity
         end.
Qed.

Module WordFacts.
Import PyStr CaseFacts.

Lemma append_empty_r (s : string) : s ++ EmptyString = s.
Proof. induction s as [| c s IH]; simpl; [reflexivity | rewrite IH; reflexivity]. Qed.

Lemma append_length (a b : string) :
  String.length (a ++ b) = (String.length a + String.length b)%nat.
Proof. induction a as [| c a IH]; simpl; [reflexivity | rewrite IH; reflexivity]. Qed.

Lemma rev_string_twice w acc x :
  rev_string x (rev_string acc w) = rev_string (w ++ x) acc.
Proof.
  revert acc. induction w as [| c w IH]; intros acc; simpl.
  - reflexivity.
  - rewrite IH. reflexivity.
Qed.

Lemma rev_string_involutive w : rev_string EmptyString (rev_string EmptyString w) = w.
Proof. rewrite rev_string_twice. simpl. apply append_empty_r. Qed.

Lemma rev_string_all p acc s :
  all_chars p (rev_string acc s) = all_chars p acc && all_chars p s.
Proof.
  revert acc. induction s as [| c s IH]; intros acc; simpl.
  - rewrite andb_true_r. reflexivity.
  - rewrite IH. simpl. destruct (p c), (all_chars p acc), (all_chars p s); reflexivity.
Qed.

Lemma rev_string_length acc s :
  String.length (rev_string acc s) = (String.length acc + String.length s)%nat.
Proof.
  revert acc. induction s as [| c s IH]; intros acc; simpl.
  - lia.
  - rewrite IH. simpl. lia.
Qed.

Lemma rev_string_word cur :
  cur <> EmptyString ->
  all_chars not_space cur = true ->
  is_word (rev_string EmptyString cur) = true.
Proof.
  intros Hne Hall. unfold is_word.
  destruct (rev_string EmptyString cur) as [| c r] eqn:Hrev.
  - exfalso. apply Hne.
    assert (Hlen : String.length (rev_string EmptyString cur) = O) by (rewrite Hrev; reflexivity).
    rewrite rev_string_length in Hlen. destruct cur; [reflexivity | simpl in Hlen; lia].
  - rewrite <- Hrev. rewrite rev_string_all. simpl. exact Hall.
Qed.

(** Every word [split] gives is a word. *)
Lemma split_go_words s cur :
  all_chars not_space cur = true ->
  Forall (fun w => is_word w = true) (split_go cur s).
Proof.
  revert cur. induction s as [| c s IH]; intros cur Hcur; simpl.
  - destruct cur as [| x cur'] eqn:Hc; [constructor |].
    constructor; [| constructor]. apply rev_string_word; [discriminate | exact Hcur].
  - destruct (is_space c) eqn:Hs.
    + destruct cur as [| x cur'] eqn:Hc.
      * apply IH. reflexivity.
      * constructor; [| apply IH; reflexivity].
        apply rev_string_word; [discriminate | exact Hcur].
    + apply IH. simpl. unfold not_space at 1. rewrite Hs. exact Hcur.
Qed.

Lemma split_words s : Forall (fun w => is_word w = true) (split s).
Proof. apply split_go_words. reflexivity. Qed.

Lemma split_go_over_word w cur s :
  all_chars not_space w = true ->
  split_go cur (w ++ s) = split_go (rev_string cur w) s.
Proof.
  revert cur. induction w as [| c w IH]; intros cur Hw; simpl in *.
  - reflexivity.
  - apply andb_true_iff in Hw. destruct Hw as [Hc Hw].
    unfold not_space in Hc. apply negb_true_iff in Hc. rewrite Hc. apply IH. exact Hw.
Qed.

Lemma is_word_not_space w : is_word w = true -> all_chars not_space w = true.
Proof. destruct w; [discriminate | auto]. Qed.

Lemma is_word_rev w : is_word w = true -> rev_string EmptyString w <> EmptyString.
Proof.
  intros Hw Hrev.
  assert (Hlen : String.length (rev_string EmptyString w) = O) by (rewrite Hrev; reflexivity).
  rewrite rev_string_length in Hlen. destruct w; [discriminate | simpl in Hlen; lia].
Qed.

(** Joining words with one blank and splitting again gives the words. *)
Lemma split_join ws :
  Forall (fun w => is_word w = true) ws ->
  split (join " " ws) = ws.
Proof.
  induction 1 as [| w ws Hw Hws IH].
  - reflexivity.
  - destruct ws as [| w2 ws].
    + cbn [join]. unfold split.
      rewrite <- (append_empty_r w) at 1.
      rewrite split_go_over_word by (apply is_word_not_space; exact Hw).
      simpl. destruct (rev_string EmptyString w) eqn:Hrev.
      * exfalso. exact (is_word_rev w Hw Hrev).
      * rewrite <- Hrev, rev_string_involutive. reflexivity.
    + change (join " " (w :: w2 :: ws)) with (w ++ String " " (join " " (w2 :: ws))).
      unfold split.
      rewrite split_go_over_word by (apply is_word_not_space; exact Hw).
      cbn [split_go]. change (is_space " ") with true. cbv iota.
      destruct (rev_string EmptyString w) eqn:Hrev.
      * exfalso. exact (is_word_rev w Hw Hrev).
      * rewrite <- Hrev, rev_string_involutive. f_equal. exact IH.
Qed.

Lemma join_cons_length sep w ws :
  (String.length (join sep (w :: ws))
   <= String.length w + String.length sep + String.length (join sep ws))%nat.
Proof.
  destruct ws as [| w2 ws].
  - simpl. lia.
  - change (join sep (w :: w2 :: ws)) with (w ++ sep ++ join sep (w2 :: ws)).
    rewrite !append_length. lia.
Qed.

Lemma split_go_length s cur :
  (String.length (join " " (split_go cur s))
   <= String.length cur + String.length s)%nat.
Proof.
  revert cur. induction s as [| c s IH]; intros cur; simpl.
  - destruct cur as [| x cur']; simpl; [lia |].
    rewrite rev_string_length. simpl. lia.
  - destruct (is_space c).
    + destruct cur as [| x cur'].
      * specialize (IH EmptyString). simpl in IH. lia.
      * specialize (IH EmptyString).
        pose proof (join_cons_length " " (rev_string EmptyString (String x cur'))
                                     (split_go EmptyString s)) as Hj.
        rewrite rev_string_length in Hj. simpl in *. lia.
    + specialize (IH (String c cur)). simpl in IH. lia.
Qed.

Lemma join_map_length sep (f : string -> string) ws :
  (forall w, String.length (f w) = String.length w) ->
  String.length (join sep (map f ws)) = String.length (join sep ws).
Proof.
  intros Hf. induction ws as [| w ws IH]; [reflexivity |].
  destruct ws as [| w2 ws].
  - simpl. apply Hf.
  - change (join sep (map f (w :: w2 :: ws)))
      with (f w ++ sep ++ join sep (map f (w2 :: ws))).
    change (join sep (w :: w2 :: ws)) with (w ++ sep ++ join sep (w2 :: ws)).
    rewrite !append_length, IH, Hf. reflexivity.
Qed.

Lemma lstrip_length s : (String.length (lstrip s) <= String.length s)%nat.
Proof.
  induction s as [| c s IH]; simpl; [lia |].
  destruct (is_space c); simpl; lia.
Qed.

Lemma rstrip_length s : (String.length (rstrip s) <= String.length s)%nat.
Proof.
  induction s as [| c s IH]; simpl; [lia |].
  destruct (rstrip s); simpl in *; [destruct (is_space c); simpl; lia | lia].
Qed.

Lemma strip_length s : (String.length (strip s) <= String.length s)%nat.
Proof.
  unfold strip. pose proof (rstrip_length (lstrip s)). pose proof (lstrip_length s). lia.
Qed.

Lemma sub_go_length match_len skip s :
  (String.length (Regex.sub_go match_len skip s) <= String.length s)%nat.
Proof.
  revert skip. induction s as [| c s IH]; intros skip; simpl; [lia |].
  destruct skip as [| k].
  - destruct (match_len (String c s)) as [| k].
    + simpl. specialize (IH O). lia.
    + specialize (IH k). lia.
  - specialize (IH k). lia.
Qed.

Lemma collapse_spaces_length in_run s :
  (String.length (Regex.collapse_spaces in_run s) <= String.length s)%nat.
Proof.
  revert in_run. induction s as [| c s IH]; intros in_run; simpl; [lia |].
  destruct (is_space c).
  - destruct in_run; simpl.
    + specialize (IH true). lia.
    + specialize (IH true). lia.
  - simpl. specialize (IH false). lia.
Qed.

Lemma clean_description_length description :
  (String.length (clean_description description) <= String.length description)%nat.
Proof.
  unfold clean_description, Regex.sub_delete.
  eapply Nat.le_trans; [apply strip_length |].
  eapply Nat.le_trans; [apply collapse_spaces_length |].
  eapply Nat.le_trans; [apply sub_go_length |].
  eapply Nat.le_trans; [apply sub_go_length |].
  eapply Nat.le_trans; [apply sub_go_length |].
  rewrite lower_length. lia.
Qed.

Lemma join_nonempty w ws :
  is_word w = true -> join " " (w :: ws) <> EmptyString.
Proof.
  destruct w as [| c w]; [discriminate |].
  intros _. destruct ws; simpl; discriminate.
Qed.

End WordFacts.

(** X9. The merchant is the empty string only for the empty
    description. *)
Theorem merchant_is_empty_only_for_empty_description (description : string) :
  extract_merchant description = EmptyString <-> description = EmptyString.
Proof.
  split.
  - unfold extract_merchant. intros H.
    pose proof (WordFacts.split_words (clean_description description)) as Hwords.
    destruct (PyStr.split (clean_description description)) as [| w ws]; [exact H |].
    exfalso. inversion Hwords as [| ? ? Hw _]; subst.
    apply (WordFacts.join_nonempty (PyStr.capitalize w) (map PyStr.capitalize ws)).
    + apply CaseFacts.capitalize_word. exact Hw.
    + exact H.
  - intros ->. reflexivity.
Qed.

(** X10. When the clean-up of an ASCII description leaves a word, the
    merchant is the words of the cleaned text, each capitalized, joined by
    one blank: splitting it gives these words back, joining them gives the
    merchant back, and capitalizing a word of it changes nothing. *)
Theorem merchant_is_capitalized_words_joined_by_one_blank (description : string) :
  all_chars is_ascii description = true ->
  PyStr.split (clean_description description) <> [] ->
  PyStr.split (extract_merchant description)
  = map PyStr.capitalize (PyStr.split (clean_description description)) /\
  PyStr.join " " (PyStr.split (extract_merchant description))
  = extract_merchant description /\
  Forall (fun w => is_word w = true /\ PyStr.capitalize w = w)
         (PyStr.split (extract_merchant description)).
Proof.
  intros _ Hne.
  pose proof (WordFacts.split_words (clean_description description)) as Hwords.
  assert (Hm : extract_merchant description
               = PyStr.join " " (map PyStr.capitalize
                                     (PyStr.split (clean_description description)))).
  { unfold extract_merchant.
    destruct (PyStr.split (clean_description description)); [contradiction | reflexivity]. }
  assert (Hcap : Forall (fun w => is_word w = true)
                   (map PyStr.capitalize (PyStr.split (clean_description description)))).
  { apply Forall_map. eapply Forall_impl; [| exact Hwords].
    intros w. apply CaseFacts.capitalize_word. }
  assert (Hsplit : PyStr.split (extract_merchant description)
                   = map PyStr.capitalize (PyStr.split (clean_description description))).
  { rewrite Hm. apply WordFacts.split_join. exact Hcap. }
  split; [exact Hsplit |]. split.
  - rewrite Hsplit. symmetry. exact Hm.
  - rewrite Hsplit. apply Forall_map. eapply Forall_impl; [| exact Hwords].
    intros w Hw. split.
    + apply CaseFacts.capitalize_word. exact Hw.
    + apply CaseFacts.capitalize_idempotent.
Qed.

(** X8. Two descriptions that differ only in the case of their ASCII
    letters get the same category and the same cleaned text, and the same
    merchant when the clean-up leaves a word. *)
Theorem case_of_description_is_ignored (d1 d2 : string) (amount : spec_float) :
  PyStr.lower d1 = PyStr.lower d2 ->
  categorize_transaction d1 amount = categorize_transaction d2 amount /\
  clean_description d1 = clean_description d2 /\
  (PyStr.split (clean_description d1) <> [] ->
   extract_merchant d1 = extract_merchant d2).
Proof.
  intros Hlow.
  assert (Hclean : clean_description d1 = clean_description d2).
  { unfold clean_description. rewrite Hlow. reflexivity. }
  split; [| split].
  - unfold categorize_transaction, categorize_with. rewrite Hlow. reflexivity.
  - exact Hclean.
  - intros Hne. unfold extract_merchant. rewrite <- Hclean.
    destruct (PyStr.split (clean_description d1)); [contradiction | reflexivity].
Qed.

(** X11. For an ASCII description, neither the merchant nor the cleaned
    text is longer than the description. *)
Theorem merchant_is_no_longer_than_description (description : string) :
  all_chars is_ascii description = true ->
  (String.length (extract_merchant description) <= String.length description)%nat /\
  (String.length (clean_description description) <= String.length description)%nat.
Proof.
  intros _. split; [| apply WordFacts.clean_description_length].
  unfold extract_merchant.
  destruct (PyStr.split (clean_description description)) as [| w ws] eqn:Hsplit.
  - lia.
  - rewrite <- Hsplit.
    rewrite (WordFacts.join_map_length " " PyStr.capitalize _
               CaseFacts.capitalize_length).
    unfold PyStr.split.
    pose proof (WordFacts.split_go_length (clean_description description) EmptyString) as H1.
    pose proof (WordFacts.clean_description_length description) as H2.
    simpl in H1. lia.
Qed.

(** ** Column roles *)

Lemma next_choice p cols i default :
  nth_error cols i = Some default ->
  role_choice p cols i (next p cols default).
Proof.
  intros Hdefault. unfold next.
  destruct (filter p cols) as [| col rest] eqn:Hfilter.
  - right. split; [| exact Hdefault].
    apply Forall_forall. intros c Hin.
    destruct (p c) eqn:Hp; [| reflexivity].
    assert (Hc : In c (filter p cols)) by (apply filter_In; auto).
    rewrite Hfilter in Hc. destruct Hc.
  - left. clear Hdefault. revert col rest Hfilter.
    induction cols as [| c cols IH]; intros col rest Hfilter; simpl in Hfilter.
    + discriminate.
    + destruct (p c) eqn:Hp.
      * injection Hfilter as -> _. exists [], cols. auto.
      * destruct (IH col rest Hfilter) as (pre & post & -> & Hcol & Hpre).
        exists (c :: pre), post. auto.
Qed.

Lemma role_choice_in p cols i col : role_choice p cols i col -> In col cols.
Proof.
  intros [(pre & post & -> & _ & _) | (_ & Hnth)].
  - apply in_or_app. right. left. reflexivity.
  - eapply nth_error_In. exact Hnth.
Qed.

Lemma resolve_columns_roles cols r :
  resolve_columns cols = inr r ->
  role_choice is_date_col cols 0 (date_col r) /\
  role_choice is_desc_col cols 1 (desc_col r) /\
  role_choice is_amount_col cols 2 (amount_col r).
Proof.
  unfold resolve_columns, column_at. intros H.
  destruct (nth_error cols 0) as [d0 |] eqn:H0; [| discriminate].
  destruct (nth_error cols 1) as [d1 |] eqn:H1; [| discriminate].
  destruct (nth_error cols 2) as [d2 |] eqn:H2; [| discriminate].
  simpl in H. injection H as <-. simpl.
  auto using next_choice.
Qed.

Lemma resolve_columns_in cols r :
  resolve_columns cols = inr r ->
  In (date_col r) cols /\ In (desc_col r) cols /\ In (amount_col r) cols.
Proof.
  intros H. destruct (resolve_columns_roles cols r H) as (Hd & Hs & Ha).
  repeat split; eapply role_choice_in; eassumption.
Qed.

(** X12. The columns resolve exactly when the header has three columns
    or more.  Each role is then a column of the header: the first one
    whose name has the role's keyword in it, or, when no name has, the
    first, second or third column. *)
Theorem roles_are_first_match_or_position (cols : list string) :
  ((3 <= List.length cols)%nat <-> exists r, resolve_columns cols = inr r) /\
  (forall r,
      resolve_columns cols = inr r ->
      role_choice is_date_col cols 0 (date_col r) /\
      role_choice is_desc_col cols 1 (desc_col r) /\
      role_choice is_amount_col cols 2 (amount_col r) /\
      In (date_col r) cols /\ In (desc_col r) cols /\ In (amount_col r) cols).
Proof.
  split.
  - split.
    + apply resolve_columns_wide.
    + intros (r & Hr).
      destruct (Nat.lt_ge_cases (List.length cols) 3) as [Hshort | Hwide]; [| exact Hwide].
      rewrite (resolve_columns_short cols Hshort) in Hr. discriminate.
  - intros r Hr.
    destruct (resolve_columns_roles cols r Hr) as (Hd & Hs & Ha).
    destruct (resolve_columns_in cols r Hr) as (Hd' & Hs' & Ha').
    auto 10.
Qed.

(** ** Looking a label up in a row *)

Lemma has_column_in cols label : has_column cols label = true <-> In label cols.
Proof.
  unfold has_column. rewrite existsb_exists. split.
  - intros (c & Hin & Heq). apply String.eqb_eq in Heq. subst. exact Hin.
  - intros Hin. exists label. split; [exact Hin | apply String.eqb_refl].
Qed.

Lemma cells_at_absent cols row label : ~ In label cols -> cells_at cols row label = [].
Proof.
  revert row. induction cols as [| c cols IH]; intros row Hnot; simpl.
  - reflexivity.
  - destruct (String.eqb c label) eqn:Heq.
    + apply String.eqb_eq in Heq. exfalso. apply Hnot. left. exact Heq.
    + apply IH. intros Hin. apply Hnot. right. exact Hin.
Qed.

Lemma cells_at_present cols row label :
  In label cols -> cells_at cols row label <> [].
Proof.
  revert row. induction cols as [| c cols IH]; intros row Hin; simpl.
  - destruct Hin.
  - destruct (String.eqb c label) eqn:Heq; [discriminate |].
    destruct Hin as [-> | Hin]; [rewrite String.eqb_refl in Heq; discriminate |].
    apply IH. exact Hin.
Qed.

Lemma cells_at_unique cols row label :
  NoDup cols -> In label cols -> exists c, cells_at cols row label = [c].
Proof.
  revert row. induction cols as [| c cols IH]; intros row Hnodup Hin; simpl.
  - destruct Hin.
  - inversion Hnodup as [| ? ? Hnotin Hnodup']; subst.
    destruct (String.eqb c label) eqn:Heq.
    + apply String.eqb_eq in Heq. subst c.
      rewrite (cells_at_absent cols (tl row) label Hnotin). eexists. reflexivity.
    + destruct Hin as [-> | Hin]; [rewrite String.eqb_refl in Heq; discriminate |].
      apply IH; assumption.
Qed.

Lemma getitem_present cols row label :
  In label cols -> exists v, getitem cols row label = inr v.
Proof.
  intros Hin. unfold getitem.
  pose proof (cells_at_present cols row label Hin) as Hne.
  destruct (cells_at cols row label) as [| c [| c' cs]]; [contradiction | |];
    eexists; reflexivity.
Qed.

Lemma getitem_scalar cols row label :
  NoDup cols -> In label cols -> exists c, getitem cols row label = inr (Scalar c).
Proof.
  intros Hnodup Hin. unfold getitem.
  destruct (cells_at_unique cols row label Hnodup Hin) as (c & ->).
  exists c. reflexivity.
Qed.

Lemma getitem_series cols row label cs :
  getitem cols row label = inr (Series cs) -> In label cols /\ ~ NoDup cols.
Proof.
  intros H.
  assert (Hin : In label cols).
  { destruct (in_dec string_dec label cols) as [Hin | Hnot]; [exact Hin |].
    unfold getitem in H. rewrite (cells_at_absent _ _ _ Hnot) in H. discriminate. }
  split; [exact Hin |].
  intros Hnodup. destruct (getitem_scalar cols row label Hnodup Hin) as (c & Hc).
  rewrite Hc in H. discriminate.
Qed.

(** ** Why a row fails *)

Section RowFacts.
Context {rt : Runtime}.

Lemma to_float_cases v :
  (exists x, to_float v = inr x /\ float_of_str (strip_currency (str v)) = Some x) \/
  (to_float v = inl (FloatError (strip_currency (str v))) /\
   float_of_str (strip_currency (str v)) = None).
Proof.
  unfold to_float.
  destruct (float_of_str (strip_currency (str v))) as [x |]; [left | right]; eauto.
Qed.

Lemma filled_cases cols row label :
  filled cols row label = inr false \/
  (exists text,
      filled cols row label = inr true /\
      has_column cols label = true /\
      getitem cols row label = inr (Scalar (Val text))) \/
  (filled cols row label = inl TruthError /\ ~ NoDup cols).
Proof.
  unfold filled. destruct (has_column cols label) eqn:Hhas; [| left; reflexivity].
  apply has_column_in in Hhas.
  destruct (getitem_present cols row label Hhas) as (v & Hv). rewrite Hv. simpl.
  destruct v as [[| text] | cs]; simpl.
  - left. reflexivity.
  - right. left. exists text. auto.
  - right. right. split; [reflexivity |].
    apply (getitem_series cols row label cs Hv).
Qed.

Lemma resolve_amount_failure cols r row e :
  In (amount_col r) cols ->
  resolve_amount cols r row = inl e -> row_failure cols e.
Proof.
  intros Hamount. unfold resolve_amount, row_failure.
  destruct (getitem_present cols row (amount_col r) Hamount) as (va & ->). simpl.
  destruct (to_float_cases va) as [(x & -> & _) | (-> & Hnone)]; simpl.
  2: { intros H. injection H as <-. left. eauto. }
  destruct (filled_cases cols row "debit")
    as [-> | [(text & -> & _ & ->) | (-> & Hdup)]]; simpl.
  - destruct (filled_cases cols row "credit")
      as [-> | [(text & -> & _ & ->) | (-> & Hdup)]]; simpl.
    + discriminate.
    + destruct (to_float_cases (Scalar (Val text))) as [(x' & -> & _) | (-> & Hnone)];
        simpl; [discriminate |].
      intros H. injection H as <-. left. eauto.
    + intros H. injection H as <-. right. auto.
  - destruct (to_float_cases (Scalar (Val text))) as [(x' & -> & _) | (-> & Hnone)];
      simpl; [discriminate |].
    intros H. injection H as <-. left. eauto.
  - intros H. injection H as <-. right. auto.
Qed.

Lemma process_row_failure cols r row e :
  In (date_col r) cols -> In (desc_col r) cols -> In (amount_col r) cols ->
  process_row cols r row = inl e -> row_failure cols e.
Proof.
  intros Hdate Hdesc Hamount. unfold process_row.
  destruct (getitem_present cols row (date_col r) Hdate) as (vd & ->). simpl.
  destruct (getitem_present cols row (desc_col r) Hdesc) as (vs & ->). simpl.
  destruct (resolve_amount cols r row) as [e' | amount] eqn:Hres; simpl.
  - intros H. injection H as <-.
    exact (resolve_amount_failure cols r row e' Hamount Hres).
  - discriminate.
Qed.

Lemma process_rows_inl cols r rows acc e :
  process_rows cols r rows acc = inl e ->
  exists row, In row rows /\ process_row cols r row = inl e.
Proof.
  revert acc. induction rows as [| row rest IH]; intros acc; simpl.
  - discriminate.
  - destruct (process_row cols r row) as [e' | t] eqn:Hrow; simpl.
    + intros H. injection H as <-. exists row. auto.
    + intros H. destruct (IH _ H) as (row' & Hin & Hrow'). exists row'. auto.
Qed.

Lemma process_rows_succeed cols r rows acc :
  (forall row, In row rows -> exists t, process_row cols r row = inr t) ->
  exists ts,
    process_rows cols r rows acc = inr ts /\
    List.length ts = (List.length acc + List.length rows)%nat.
Proof.
  revert acc. induction rows as [| row rest IH]; intros acc Hall; simpl.
  - exists acc. split; [reflexivity | lia].
  - destruct (Hall row (or_introl eq_refl)) as (t & ->). simpl.
    destruct (IH (acc ++ [t])%list (fun row' Hin => Hall row' (or_intror Hin)))
      as (ts & -> & Hlen).
    exists ts. split; [reflexivity |]. rewrite Hlen, length_app. simpl. lia.
Qed.

End RowFacts.

(** ** Signs *)

Lemma negative_not_positive (x : spec_float) : lt0 x = true -> gt0 x = false.
Proof. destruct x as [[|] | [|] | | [|] m e]; simpl; intros H; try reflexivity; discriminate. Qed.

Lemma opp_positive (x : spec_float) : gt0 (SFopp x) = lt0 x.
Proof. destruct x as [[|] | [|] | | [|] m e]; reflexivity. Qed.

Lemma opp_negative (x : spec_float) : lt0 (SFopp x) = gt0 x.
Proof. destruct x as [[|] | [|] | | [|] m e]; reflexivity. Qed.

Lemma abs_opp (x : spec_float) : SFabs (SFopp x) = SFabs x.
Proof. destruct x as [[|] | [|] | | [|] m e]; reflexivity. Qed.

Lemma abs_positive (x : spec_float) :
  gt0 (SFabs x) = gt0 x || lt0 x.
Proof. destruct x as [[|] | [|] | | [|] m e]; reflexivity. Qed.

Section FileFacts.
Context {rt : Runtime}.

Lemma getitem_scalar_cells cols row label c :
  getitem cols row label = inr (Scalar c) -> cells_at cols row label = [c].
Proof.
  unfold getitem.
  destruct (cells_at cols row label) as [| c' [| c'' cs]]; intros H;
    try discriminate.
  injection H as ->. reflexivity.
Qed.

Lemma resolve_amount_debit cols r row text x amount :
  has_column cols "debit" = true ->
  getitem cols row "debit" = inr (Scalar (Val text)) ->
  float_of_str (strip_currency text) = Some x ->
  resolve_amount cols r row = inr amount ->
  amount = SFopp x.
Proof.
  intros Hhas Hcell Hx. unfold resolve_amount. intros H. unbind H.
  rewrite (filled_present _ _ _ _ Hhas Hcell) in Ha1. injection Ha1 as <-.
  unbind H. rewrite Hcell in Ha1. injection Ha1 as <-.
  rewrite (to_float_present _ _ Hx) in Ha2. injection Ha2 as <-.
  injection H as <-. reflexivity.
Qed.

(** X13. A file fails for one of four reasons only: [read_csv] raised,
    the header has fewer than three columns, [float] rejected a text, or
    the truth value of a [Series] was asked for, which takes two columns
    with the same label.  No row lookup ever raises [KeyError]. *)
Theorem every_failure_has_one_of_four_causes (file_path : string) (e : exn) :
  process_frame file_path = inl e ->
  (exists message, read_csv file_path = inl message /\ e = LoadError message) \/
  (exists df,
      read_csv file_path = inr df /\
      (List.length (columns df) < 3)%nat /\
      e = IndexError (List.length (columns df)) (List.length (columns df))) \/
  (exists df text,
      read_csv file_path = inr df /\
      e = FloatError text /\ float_of_str text = None) \/
  (exists df,
      read_csv file_path = inr df /\ e = TruthError /\ ~ NoDup (header df)).
Proof.
  unfold process_frame. intros H.
  destruct (read_csv file_path) as [message | df] eqn:Hload; simpl in H.
  - left. injection H as <-. eauto.
  - right.
    destruct (Nat.lt_ge_cases (List.length (columns df)) 3) as [Hshort | Hwide].
    + left. exists df. rewrite resolve_columns_short in H
        by (rewrite header_length; exact Hshort).
      simpl in H. injection H as <-. rewrite header_length. auto.
    + right.
      destruct (resolve_columns_wide (header df)) as (r & Hr);
        [rewrite header_length; exact Hwide |].
      rewrite Hr in H. simpl in H.
      destruct (process_rows_inl _ _ _ _ _ H) as (row & _ & Hrow).
      destruct (resolve_columns_in _ _ Hr) as (Hd & Hs & Ha).
      destruct (process_row_failure _ _ _ _ Hd Hs Ha Hrow)
        as [(text & -> & Hnone) | (-> & Hdup)].
      * left. exists df, text. auto.
      * right. exists df. auto.
Qed.

(** X14. A file that loads, with three columns or more and no label
    twice, gives one transaction per row as soon as [float] accepts the
    cells of the amount column and the filled cells of the debit and
    credit columns. *)
Theorem readable_numbers_give_a_transaction_per_row file_path df r :
  read_csv file_path = inr df ->
  resolve_columns (header df) = inr r ->
  NoDup (header df) ->
  (forall row c,
      In row (rows df) ->
      In c (cells_at (header df) row (amount_col r)) ->
      float_of_str (strip_currency (str (Scalar c))) <> None) ->
  (forall row label text,
      In row (rows df) ->
      label = "debit" \/ label = "credit" ->
      In (Val text) (cells_at (header df) row label) ->
      float_of_str (strip_currency text) <> None) ->
  exists ts,
    process_csv file_path = Transactions ts /\
    List.length ts = List.length (rows df).
Proof.
  intros Hload Hr Hnodup Hamount Hside.
  destruct (resolve_columns_in _ _ Hr) as (Hd & Hs & Ha).
  assert (Hrows : forall row, In row (rows df) ->
                    exists t, process_row (header df) r row = inr t).
  { intros row Hin.
    destruct (process_row (header df) r row) as [e | t] eqn:Hrow; [| eauto].
    exfalso.
    destruct (process_row_failure _ _ _ _ Hd Hs Ha Hrow)
      as [(text & -> & Hnone) | (_ & Hdup)]; [| exact (Hdup Hnodup)].
    revert Hrow. unfold process_row.
    destruct (getitem_present (header df) row _ Hd) as (vd & ->).
    destruct (getitem_present (header df) row _ Hs) as (vs & ->).
    simpl. unfold resolve_amount.
    destruct (getitem_scalar _ row _ Hnodup Ha) as (c & Hc). rewrite Hc. simpl.
    apply getitem_scalar_cells in Hc.
    destruct (to_float_cases (Scalar c)) as [(x & -> & _) | (_ & Hbad)].
    2: { exfalso. apply (Hamount row c Hin); [rewrite Hc; left; reflexivity | exact Hbad]. }
    simpl.
    assert (Hread : forall label text,
               label = "debit" \/ label = "credit" ->
               getitem (header df) row label = inr (Scalar (Val text)) ->
               exists x, to_float (Scalar (Val text)) = inr x).
    { intros label text' Hlabel Hcell. apply getitem_scalar_cells in Hcell.
      destruct (to_float_cases (Scalar (Val text'))) as [(x' & -> & _) | (_ & Hbad)];
        [eauto |].
      exfalso. apply (Hside row label text' Hin Hlabel);
        [rewrite Hcell; left; reflexivity | exact Hbad]. }
    destruct (filled_cases (header df) row "debit")
      as [-> | [(t1 & -> & _ & Hc1) | (_ & Hdup)]]; simpl;
      [| | exfalso; exact (Hdup Hnodup)].
    - destruct (filled_cases (header df) row "credit")
        as [-> | [(t2 & -> & _ & Hc2) | (_ & Hdup)]]; simpl;
        [discriminate | | exfalso; exact (Hdup Hnodup)].
      rewrite Hc2. simpl.
      destruct (Hread "credit" t2 (or_intror eq_refl) Hc2) as (x' & ->).
      discriminate.
    - rewrite Hc1. simpl.
      destruct (Hread "debit" t1 (or_introl eq_refl) Hc1) as (x' & ->).
      discriminate. }
  unfold process_csv, process_frame. rewrite Hload. simpl. rewrite Hr. simpl.
  destruct (process_rows_succeed (header df) r (rows df) [] Hrows) as (ts & -> & Hlen).
  exists ts. auto.
Qed.

(** X15. In every transaction of the output the original description
    is the description, the merchant is the one extracted from it, the
    date is a fixed point of the normalizer, the amount is not below
    zero, an expense is not income and has an amount above zero, and
    income is not an expense and has an amount above zero. *)
Theorem transaction_fields_agree (file_path : string) (ts : list transaction) :
  process_csv file_path = Transactions ts ->
  Forall (fun t =>
            t_originalDescription t = t_description t /\
            t_merchant t = extract_merchant (t_description t) /\
            normalize_date (t_date t) = t_date t /\
            lt0 (t_amount t) = false /\
            (t_isExpense t = true ->
             t_category t <> "income" /\ gt0 (t_amount t) = true) /\
            (t_category t = "income" ->
             t_isExpense t = false /\ gt0 (t_amount t) = true) /\
            In (t_category t) category_labels)
         ts.
Proof.
  intros H.
  destruct (process_csv_transactions _ _ H) as (df & r & _ & _ & Hall).
  clear H. induction Hall as [| row t rows' ts' Ht _ IH]; constructor; [| exact IH].
  apply process_row_inr in Ht.
  destruct Ht as (vd & vs & amount & _ & _ & _ & ->). simpl.
  repeat split.
  - apply normalize_date_fixed.
  - apply abs_not_negative.
  - intros Hincome. apply categorize_income_iff in Hincome.
    rewrite (negative_not_positive _ H) in Hincome. discriminate.
  - rewrite abs_positive, H. apply orb_true_r.
  - apply categorize_income_iff in H. apply positive_not_negative. exact H.
  - apply categorize_income_iff in H. rewrite abs_positive, H. reflexivity.
  - apply categorize_label.
Qed.

(** X16. A row whose signed amount is neither above nor below zero (a
    zero or a NaN) is no expense and no income: the flag is false and the
    category comes from the keywords. *)
Theorem zero_amount_is_neither_expense_nor_income cols r row t amount :
  process_row cols r row = inr t ->
  resolve_amount cols r row = inr amount ->
  gt0 amount = false ->
  lt0 amount = false ->
  t_isExpense t = false /\
  t_category t <> "income" /\
  t_category t = scan_categories categories (PyStr.lower (t_description t)) /\
  gt0 (t_amount t) = false.
Proof.
  intros Ht Hamount Hpos Hneg. apply process_row_inr in Ht.
  destruct Ht as (vd & vs & amount' & _ & _ & Hamount' & ->).
  rewrite Hamount in Hamount'. injection Hamount' as <-. simpl.
  repeat split.
  - exact Hneg.
  - intros Hincome. apply categorize_income_iff in Hincome. congruence.
  - unfold categorize_transaction, categorize_with. rewrite Hpos. reflexivity.
  - rewrite abs_positive, Hpos, Hneg. reflexivity.
Qed.

(** X17. With a filled debit cell the transaction is an expense exactly
    when the number of the cell is above zero; a number below zero in the
    debit cell makes the row income. *)
Theorem debit_sign_is_flipped cols r row t text x :
  process_row cols r row = inr t ->
  has_column cols "debit" = true ->
  getitem cols row "debit" = inr (Scalar (Val text)) ->
  float_of_str (strip_currency text) = Some x ->
  t_amount t = SFabs x /\
  t_isExpense t = gt0 x /\
  (lt0 x = true -> t_category t = "income") /\
  (lt0 x = false -> t_category t <> "income").
Proof.
  intros Ht Hhas Hcell Hx. apply process_row_inr in Ht.
  destruct Ht as (vd & vs & amount & _ & _ & Hamount & ->).
  rewrite (resolve_amount_debit _ _ _ _ _ _ Hhas Hcell Hx Hamount). simpl.
  repeat split.
  - apply abs_opp.
  - apply opp_negative.
  - intros Hneg. apply categorize_income_iff. rewrite opp_positive. exact Hneg.
  - intros Hneg Hincome. apply categorize_income_iff in Hincome.
    rewrite opp_positive in Hincome. congruence.
Qed.

(** X18. Without a filled debit cell the amount is that of a filled credit
    cell, and else that of the amount column: no debit and no credit
    column, no debit column and a filled or an empty credit cell, an
    empty debit cell and no or an empty credit cell. *)
Theorem amount_without_a_filled_debit cols r row v amount0 :
  getitem cols row (amount_col r) = inr v ->
  to_float v = inr amount0 ->
  (has_column cols "debit" = false ->
   has_column cols "credit" = false ->
   resolve_amount cols r row = inr amount0) /\
  (forall credit x,
      has_column cols "debit" = false ->
      has_column cols "credit" = true ->
      getitem cols row "credit" = inr (Scalar (Val credit)) ->
      float_of_str (strip_currency credit) = Some x ->
      resolve_amount cols r row = inr x) /\
  (has_column cols "debit" = false ->
   has_column cols "credit" = true ->
   getitem cols row "credit" = inr (Scalar NaN) ->
   resolve_amount cols r row = inr amount0) /\
  (has_column cols "debit" = true ->
   getitem cols row "debit" = inr (Scalar NaN) ->
   has_column cols "credit" = false ->
   resolve_amount cols r row = inr amount0) /\
  (has_column cols "debit" = true ->
   getitem cols row "debit" = inr (Scalar NaN) ->
   has_column cols "credit" = true ->
   getitem cols row "credit" = inr (Scalar NaN) ->
   resolve_amount cols r row = inr amount0).
Proof.
  intros Hv Hamount0.
  assert (Hstart : resolve_amount cols r row
                   = (use_debit <- filled cols row "debit" ;;
                      if use_debit then
                        v <- getitem cols row "debit" ;;
                        x <- to_float v ;; inr (SFopp x)
                      else
                        use_credit <- filled cols row "credit" ;;
                        if use_credit then
                          v <- getitem cols row "credit" ;; to_float v
                        else inr amount0)).
  { unfold resolve_amount. rewrite Hv. simpl. rewrite Hamount0. reflexivity. }
  rewrite Hstart. unfold filled. repeat split.
  - intros -> ->. reflexivity.
  - intros credit x -> -> Hcell Hx. simpl. rewrite Hcell. simpl.
    apply to_float_present. exact Hx.
  - intros -> -> Hcell. simpl. rewrite Hcell. reflexivity.
  - intros -> Hcell ->. simpl. rewrite Hcell. reflexivity.
  - intros -> Hcell -> Hcell'. simpl. rewrite Hcell. simpl. rewrite Hcell'. reflexivity.
Qed.

End FileFacts.

(** ** Cleaning a number *)

Module CharFacts.
Import PyStr.

Lemma all_chars_app p a b :
  all_chars p (a ++ b) = all_chars p a && all_chars p b.
Proof.
  induction a as [| c a IH]; simpl; [reflexivity |].
  rewrite IH. apply andb_assoc.
Qed.

Lemma delete_char_app c a b :
  replace_char c EmptyString (a ++ b)
  = replace_char c EmptyString a ++ replace_char c EmptyString b.
Proof.
  induction a as [| x a IH]; simpl; [reflexivity |].
  destruct (Ascii.eqb x c); simpl; rewrite IH; reflexivity.
Qed.

Lemma delete_char_keeps p c s :
  all_chars p s = true -> all_chars p (replace_char c EmptyString s) = true.
Proof.
  induction s as [| x s IH]; simpl; [reflexivity |].
  intros H. apply andb_true_iff in H. destruct H as [Hx Hs].
  destruct (Ascii.eqb x c); simpl; [auto | rewrite Hx; auto].
Qed.

Lemma delete_char_gone c s :
  all_chars (fun x => negb (Ascii.eqb x c)) (replace_char c EmptyString s) = true.
Proof.
  induction s as [| x s IH]; simpl; [reflexivity |].
  destruct (Ascii.eqb x c) eqn:Hx; simpl; [exact IH | rewrite Hx; exact IH].
Qed.

Lemma delete_char_absent c s :
  all_chars (fun x => negb (Ascii.eqb x c)) s = true ->
  replace_char c EmptyString s = s.
Proof.
  induction s as [| x s IH]; simpl; [reflexivity |].
  intros H. apply andb_true_iff in H. destruct H as [Hx Hs].
  apply negb_true_iff in Hx. rewrite Hx, (IH Hs). reflexivity.
Qed.

Lemma all_chars_and p q s :
  all_chars (fun c => p c && q c) s = all_chars p s && all_chars q s.
Proof.
  induction s as [| c s IH]; simpl; [reflexivity |].
  rewrite IH. destruct (p c), (q c), (all_chars p s), (all_chars q s); reflexivity.
Qed.

Lemma strip_currency_clean text : all_chars not_currency (strip_currency text) = true.
Proof.
  unfold not_currency, strip_currency. rewrite all_chars_and. apply andb_true_iff. split.
  - apply delete_char_keeps. apply delete_char_gone.
  - apply delete_char_gone.
Qed.

Lemma strip_currency_fixed text :
  all_chars not_currency text = true -> strip_currency text = text.
Proof.
  unfold not_currency, strip_currency. rewrite all_chars_and.
  intros H. apply andb_true_iff in H. destruct H as [Hd Hc].
  rewrite (delete_char_absent "$" text Hd). apply delete_char_absent. exact Hc.
Qed.

End CharFacts.

(** X19. Cleaning a number drops every dollar sign and every comma,
    wherever it stands, and nothing else; so a comma between digits is
    lost whatever it meant. *)
Theorem currency_marks_are_dropped_wherever_they_stand :
  (forall a b, strip_currency (a ++ b) = strip_currency a ++ strip_currency b) /\
  (forall text, all_chars not_currency (strip_currency text) = true) /\
  (forall text, all_chars not_currency text = true -> strip_currency text = text) /\
  (forall text, strip_currency (strip_currency text) = strip_currency text) /\
  (forall a b, strip_currency (a ++ "," ++ b) = strip_currency (a ++ b)) /\
  (forall a b, strip_currency (a ++ "$" ++ b) = strip_currency (a ++ b)).
Proof.
  assert (Happ : forall a b,
             strip_currency (a ++ b) = strip_currency a ++ strip_currency b).
  { intros a b. unfold strip_currency. rewrite !CharFacts.delete_char_app. reflexivity. }
  split; [exact Happ |].
  split; [apply CharFacts.strip_currency_clean |].
  split; [apply CharFacts.strip_currency_fixed |].
  split; [| split].
  - intros text. apply CharFacts.strip_currency_fixed.
    apply CharFacts.strip_currency_clean.
  - intros a b. rewrite !Happ. reflexivity.
  - intros a b. rewrite !Happ. reflexivity.
Qed.

(** ** A label carried by two columns *)

Lemma cells_at_app a b row label :
  cells_at (a ++ b) row label
  = (cells_at a row label ++ cells_at b (skipn (List.length a) row) label)%list.
Proof.
  revert row. induction a as [| c a IH]; intros row; simpl.
  - reflexivity.
  - rewrite IH. destruct row as [| x row]; simpl.
    + rewrite skipn_nil. destruct (String.eqb c label); reflexivity.
    + destruct (String.eqb c label); reflexivity.
Qed.

Lemma cells_at_twice a b c row label :
  exists x y rest,
    cells_at (a ++ label :: b ++ label :: c) row label = x :: y :: rest.
Proof.
  revert row. induction a as [| col a IH]; intros row.
  - cbn [app cells_at]. rewrite String.eqb_refl.
    rewrite cells_at_app. cbn [cells_at]. rewrite String.eqb_refl.
    destruct (cells_at b (tl row) label) as [| y rest]; simpl; eauto.
  - cbn [app cells_at].
    destruct (IH (tl row)) as (x & y & rest & ->).
    destruct (String.eqb col label); eauto.
Qed.

Lemma bind_fails_first {A B : Type} (r : result A) (k : A -> result B) :
  (exists e, r = inl e) -> exists e, bind r k = inl e.
Proof. intros (e & ->). exists e. reflexivity. Qed.

Section DuplicateFacts.
Context {rt : Runtime}.

Lemma duplicate_label_truth a b c row label :
  filled (a ++ label :: b ++ label :: c) row label = inl TruthError.
Proof.
  unfold filled.
  assert (Hhas : has_column (a ++ label :: b ++ label :: c) label = true).
  { apply has_column_in. apply in_or_app. right. left. reflexivity. }
  rewrite Hhas. unfold getitem.
  destruct (cells_at_twice a b c row label) as (x & y & rest & ->).
  reflexivity.
Qed.

(** X20. When two labels of the header normalize to [debit], every row
    raises, and a file with a row fails. *)
Theorem two_debit_columns_fail_every_row file_path df a b c :
  read_csv file_path = inr df ->
  header df = (a ++ "debit" :: b ++ "debit" :: c)%list ->
  rows df <> [] ->
  (forall r row, exists e, process_row (header df) r row = inl e) /\
  exists e, process_frame file_path = inl e /\ process_csv file_path = Error (exn_str e).
Proof.
  intros Hload Hheader Hrows.
  assert (Hrow : forall r row, exists e, process_row (header df) r row = inl e).
  { intros r row. unfold process_row.
    apply bind_fails_later. intros vd.
    apply bind_fails_later. intros vs.
    apply bind_fails_first. unfold resolve_amount.
    apply bind_fails_later. intros va.
    apply bind_fails_later. intros amount.
    apply bind_fails_first.
    rewrite Hheader, duplicate_label_truth. eexists. reflexivity. }
  split; [exact Hrow |].
  unfold process_csv, process_frame. rewrite Hload. simpl.
  destruct (resolve_columns (header df)) as [e | r]; simpl.
  - exists e. auto.
  - destruct (rows df) as [| row rest]; [contradiction |]. simpl.
    destruct (Hrow r row) as (e & ->). simpl. exists e. auto.
Qed.

End DuplicateFacts.

(** ** The printed line *)

Module JsonFacts.
Import PyStr Json CharFacts.

Lemma escape_char_printable c : all_chars printable (escape_char c) = true.
Proof. destruct c as [[] [] [] [] [] [] [] []]; reflexivity. Qed.

Lemma escape_printable s : all_chars printable (escape s) = true.
Proof.
  induction s as [| c s IH]; simpl; [reflexivity |].
  rewrite all_chars_app, escape_char_printable, IH. reflexivity.
Qed.

Lemma dumps_str_printable s : all_chars printable (dumps_str s) = true.
Proof.
  unfold dumps_str. rewrite !all_chars_app, escape_printable. reflexivity.
Qed.

Lemma join_printable sep ws :
  all_chars printable sep = true ->
  Forall (fun w => all_chars printable w = true) ws ->
  all_chars printable (join sep ws) = true.
Proof.
  intros Hsep. induction 1 as [| w ws Hw Hws IH]; [reflexivity |].
  destruct ws as [| w2 ws]; [exact Hw |].
  change (join sep (w :: w2 :: ws)) with (w ++ sep ++ join sep (w2 :: ws)).
  rewrite !all_chars_app, Hw, Hsep, IH. reflexivity.
Qed.

Lemma dumps_dict_printable items :
  Forall (fun kv => all_chars printable (snd kv) = true) items ->
  all_chars printable (dumps_dict items) = true.
Proof.
  intros Hitems. unfold dumps_dict.
  rewrite !all_chars_app, join_printable; [reflexivity | reflexivity |].
  apply Forall_map. eapply Forall_impl; [| exact Hitems].
  intros [k v] Hv. unfold dumps_item. cbn [fst snd] in *.
  rewrite !all_chars_app, dumps_str_printable, Hv. reflexivity.
Qed.

Lemma dumps_list_printable elements :
  Forall (fun x => all_chars printable x = true) elements ->
  all_chars printable (dumps_list elements) = true.
Proof.
  intros H. unfold dumps_list.
  rewrite !all_chars_app, join_printable; [reflexivity | reflexivity | exact H].
Qed.

End JsonFacts.

Section MainFacts.
Context {rt : Runtime}.

Lemma dumps_error_printable message :
  all_chars printable (dumps_error message) = true.
Proof.
  unfold dumps_error. apply JsonFacts.dumps_dict_printable.
  constructor; [apply JsonFacts.dumps_str_printable | constructor].
Qed.

Lemma dumps_transaction_printable t :
  all_chars printable (dumps_float (t_amount t)) = true ->
  all_chars printable (dumps_transaction t) = true.
Proof.
  intros Hamount. unfold dumps_transaction. apply JsonFacts.dumps_dict_printable.
  repeat constructor; simpl;
    try apply JsonFacts.dumps_str_printable; try exact Hamount.
  destruct (t_isExpense t); reflexivity.
Qed.

(** X21. The script prints exactly one line, made of printable ASCII
    characters only, provided the amounts print so. *)
Theorem stdout_is_one_line_of_printable_ascii (argv : list string) :
  (forall ts,
      process_csv (nth 1 argv EmptyString) = Transactions ts ->
      Forall (fun t => all_chars printable (dumps_float (t_amount t)) = true) ts) ->
  exists line,
    stdout (main argv) = [line] /\ all_chars printable line = true.
Proof.
  intros Hfloats. unfold main.
  destruct (List.length argv <? 2)%nat.
  - eexists. split; [reflexivity | apply dumps_error_printable].
  - eexists. split; [reflexivity |]. simpl.
    destruct (process_csv (nth 1 argv EmptyString)) as [ts | message] eqn:Hout; simpl.
    + apply JsonFacts.dumps_list_printable. apply Forall_map.
      eapply Forall_impl; [| exact (Hfloats ts eq_refl)].
      intros t. apply dumps_transaction_printable.
    + apply dumps_error_printable.
Qed.

(** X22. Whatever the message of the exception, the error object is
    printed with printable ASCII characters only and starts with a
    brace. *)
Theorem error_line_is_printable_ascii (message : string) :
  all_chars printable (dumps (Error message)) = true /\
  exists tail, dumps (Error message) = String "{" tail.
Proof.
  split; [apply dumps_error_printable |].
  eexists. reflexivity.
Qed.

(** X23. Without a path the script exits with status 1; with one it
    exits with status 0, prints the result of that path alone, whatever
    arguments follow, and the line starts with a bracket for a list of
    transactions and with a brace for an error. *)
Theorem main_exits_1_only_without_a_path (argv : list string) :
  ((List.length argv < 2)%nat /\
   main argv = {| stdout := [dumps_error "No file path provided"];
                  exit_status := 1 |}) \/
  (exists script file_path rest,
      argv = script :: file_path :: rest /\
      main argv = main [script; file_path] /\
      exit_status (main argv) = 0%Z /\
      stdout (main argv) = [dumps (process_csv file_path)] /\
      ((exists ts tail,
           process_csv file_path = Transactions ts /\
           dumps (process_csv file_path) = String "[" tail) \/
       (exists message tail,
           process_csv file_path = Error message /\
           dumps (process_csv file_path) = String "{" tail))).
Proof.
  destruct argv as [| script [| file_path rest]].
  - left. split; [simpl; lia | reflexivity].
  - left. split; [simpl; lia | reflexivity].
  - right. exists script, file_path, rest.
    repeat split.
    destruct (process_csv file_path) as [ts | message].
    + left. exists ts. eexists. split; reflexivity.
    + right. exists message. eexists. split; reflexivity.
Qed.

(** X24. A file with a header of three columns or more and no row gives
    the empty list, printed as [[]]. *)
Theorem header_without_rows_prints_empty_list script file_path rest df :
  read_csv file_path = inr df ->
  (3 <= List.length (columns df))%nat ->
  rows df = [] ->
  process_csv file_path = Transactions [] /\
  main (script :: file_path :: rest) = {| stdout := ["[]"]; exit_status := 0 |}.
Proof.
  intros Hload Hwide Hrows.
  assert (Hout : process_csv file_path = Transactions []).
  { unfold process_csv, process_frame. rewrite Hload. simpl.
    destruct (resolve_columns_wide (header df)) as (r & ->);
      [rewrite header_length; exact Hwide |].
    simpl. rewrite Hrows. reflexivity. }
  split; [exact Hout |].
  unfold main. simpl. rewrite Hout. reflexivity.
Qed.

End MainFacts.

(** ** The further properties at sample inputs *)

Lemma month_first_and_year_first_dates_witness :
  normalize_date "01/02/2023" = "2023-01-02" /\
  normalize_date "01-02-2023" = "2023-01-02" /\
  normalize_date "2023-01-02" = "2023-01-02" /\
  normalize_date "2023/01/02" = "2023-01-02".
Proof.
  destruct (month_first_and_year_first_dates 2023 1 2 eq_refl)
    as (H1 & H2 & H3 & H4 & _).
  repeat split; assumption.
Defined.

Lemma day_first_dates_above_12_witness :
  normalize_date "13/02/2023" = "2023-02-13" /\
  normalize_date "13-02-2023" = "2023-02-13".
Proof.
  destruct (day_first_dates_above_12 2023 2 13) as (H1 & H2 & _).
  - reflexivity.
  - lia.
  - split; assumption.
Defined.

Lemma day_first_dates_up_to_12_are_swapped_witness :
  normalize_date "05/06/2023" = "2023-05-06" /\
  normalize_date "05-06-2023" = "2023-05-06".
Proof.
  destruct (day_first_dates_up_to_12_are_swapped 2023 6 5) as (H1 & H2 & _);
    [lia | lia | lia |].
  split; assumption.
Defined.

Lemma two_digit_years_pivot_at_69_witness :
  normalize_date "02/13/68" = "2068-02-13" /\
  normalize_date "13/02/68" = "2068-02-13" /\
  normalize_date "02/13/69" = "1969-02-13".
Proof.
  split; [| split].
  - refine (proj1 (proj2 (two_digit_years_pivot_at_69 68 2 13 _ _))); [lia | reflexivity].
  - refine (proj2 (proj2 (two_digit_years_pivot_at_69 68 2 13 _ _)) _);
      [lia | reflexivity | lia].
  - refine (proj1 (proj2 (two_digit_years_pivot_at_69 69 2 13 _ _))); [lia | reflexivity].
Defined.

Lemma normalized_date_is_text_or_calendar_day_witness :
  exists dt,
    Strptime.valid_date (Strptime.year dt) (Strptime.month dt) (Strptime.day dt) = true /\
    normalize_date "13/02/2023" = Strptime.strftime dt.
Proof.
  destruct (normalized_date_is_text_or_calendar_day "13/02/2023")
    as (fmt & dt & _ & _ & Hvalid & Hout & _).
  - discriminate.
  - exists dt. split; assumption.
Defined.

Lemma date_with_trailing_text_is_unchanged_witness :
  normalize_date "2023-01-02 10:00:00" = "2023-01-02 10:00:00".
Proof.
  apply (date_with_trailing_text_is_unchanged 2023 1 2 " " "10:00:00"). reflexivity.
Defined.

Lemma income_exactly_for_positive_amounts_witness :
  categorize_transaction "Uber" float0
  = scan_categories (removelast categories) "uber" /\
  categorize_transaction "Uber" (Sample.binary64_of_Z 3) = "income".
Proof.
  split.
  - apply (income_exactly_for_positive_amounts "Uber" float0). reflexivity.
  - apply (income_exactly_for_positive_amounts "Uber" (Sample.binary64_of_Z 3)).
    reflexivity.
Defined.

Lemma case_of_description_is_ignored_witness :
  categorize_transaction "UBER Trip" float0 = categorize_transaction "uber TRIP" float0 /\
  extract_merchant "UBER Trip" = extract_merchant "uber TRIP".
Proof.
  destruct (case_of_description_is_ignored "UBER Trip" "uber TRIP" float0 eq_refl)
    as (Hcat & _ & Hmerchant).
  split; [exact Hcat |]. apply Hmerchant. discriminate.
Defined.

Lemma merchant_is_empty_only_for_empty_description_witness :
  extract_merchant EmptyString = EmptyString /\
  extract_merchant "POS " <> EmptyString.
Proof.
  split.
  - apply (merchant_is_empty_only_for_empty_description EmptyString). reflexivity.
  - intros H. apply (merchant_is_empty_only_for_empty_description "POS ") in H.
    discriminate.
Defined.

Lemma merchant_is_capitalized_words_joined_by_one_blank_witness :
  PyStr.split (extract_merchant "ACH  acme   CORP 12/34")
  = map PyStr.capitalize (PyStr.split (clean_description "ACH  acme   CORP 12/34")) /\
  PyStr.join " " (PyStr.split (extract_merchant "ACH  acme   CORP 12/34"))
  = extract_merchant "ACH  acme   CORP 12/34".
Proof.
  destruct (merchant_is_capitalized_words_joined_by_one_blank "ACH  acme   CORP 12/34")
    as (Hsplit & Hjoin & _).
  - reflexivity.
  - discriminate.
  - split; assumption.
Defined.

Lemma merchant_is_no_longer_than_description_witness :
  (String.length (extract_merchant "POS Debit  coffee house 0012345678")
   <= String.length "POS Debit  coffee house 0012345678")%nat.
Proof.
  apply (merchant_is_no_longer_than_description "POS Debit  coffee house 0012345678").
  reflexivity.
Defined.

Lemma roles_are_first_match_or_position_witness :
  role_choice is_date_col (header Sample2.credit_only) 0 "posted_date" /\
  role_choice is_desc_col (header Sample2.credit_only) 1 "narrative" /\
  role_choice is_amount_col (header Sample2.credit_only) 2 "sum".
Proof.
  destruct (roles_are_first_match_or_position (header Sample2.credit_only))
    as (_ & Hroles).
  destruct (Hroles Sample2.credit_roles eq_refl) as (Hd & Hs & Ha & _).
  auto.
Defined.

Lemma every_failure_has_one_of_four_causes_witness :
  (exists message,
      Sample.files "broken.csv" = inl message /\ FloatError "n/a" = LoadError message) \/
  (exists df,
      Sample.files "broken.csv" = inr df /\
      (List.length (columns df) < 3)%nat /\
      FloatError "n/a" = IndexError (List.length (columns df)) (List.length (columns df))) \/
  (exists df text,
      Sample.files "broken.csv" = inr df /\
      FloatError "n/a" = FloatError text /\ Sample.read_float text = None) \/
  (exists df,
      Sample.files "broken.csv" = inr df /\
      FloatError "n/a" = TruthError /\ ~ NoDup (header df)).
Proof.
  apply (every_failure_has_one_of_four_causes (rt := Sample.runtime)
           "broken.csv" (FloatError "n/a")).
  reflexivity.
Defined.

Lemma readable_numbers_give_a_transaction_per_row_witness :
  exists ts,
    process_csv (rt := Sample.runtime) "bank.csv" = Transactions ts /\
    List.length ts = 4%nat.
Proof.
  apply (readable_numbers_give_a_transaction_per_row (rt := Sample.runtime)
           "bank.csv" Sample.bank Sample.bank_roles).
  - reflexivity.
  - reflexivity.
  - repeat constructor; simpl; intuition discriminate.
  - intros row c Hrow Hc. simpl in Hrow.
    repeat (destruct Hrow as [<- | Hrow];
            [simpl in Hc; destruct Hc as [<- | []]; discriminate |]).
    destruct Hrow.
  - intros row label text Hrow Hlabel Hc. simpl in Hrow.
    destruct Hlabel as [-> | ->];
      repeat (destruct Hrow as [<- | Hrow];
              [simpl in Hc; destruct Hc as [Hc | []];
               try discriminate; injection Hc as <-; discriminate |]);
      destruct Hrow.
Defined.

Lemma transaction_fields_agree_witness :
  Forall (fun t =>
            t_originalDescription t = t_description t /\
            t_merchant t = extract_merchant (t_description t) /\
            normalize_date (t_date t) = t_date t /\
            lt0 (t_amount t) = false /\
            (t_isExpense t = true ->
             t_category t <> "income" /\ gt0 (t_amount t) = true) /\
            (t_category t = "income" ->
             t_isExpense t = false /\ gt0 (t_amount t) = true) /\
            In (t_category t) category_labels)
         Sample.bank_transactions.
Proof.
  apply (transaction_fields_agree (rt := Sample.runtime) "bank.csv"). reflexivity.
Defined.

Lemma zero_amount_is_neither_expense_nor_income_witness :
  exists t,
    process_row (rt := Sample2.more_runtime) (header Sample2.credit_only) Sample2.credit_roles
      [Val "05/06/2023"; Val "Free coffee"; Val "0.00"; NaN] = inr t /\
    t_isExpense t = false /\
    t_category t <> "income" /\
    t_category t = scan_categories categories (PyStr.lower (t_description t)) /\
    gt0 (t_amount t) = false.
Proof.
  eexists. split; [reflexivity |].
  eapply (zero_amount_is_neither_expense_nor_income (rt := Sample2.more_runtime)
            (header Sample2.credit_only) Sample2.credit_roles
            [Val "05/06/2023"; Val "Free coffee"; Val "0.00"; NaN]);
    reflexivity.
Defined.

Lemma debit_sign_is_flipped_witness :
  exists t x,
    process_row (rt := Sample.runtime) (header Sample.bank) Sample.bank_roles
      [Val "15/01/2023"; Val "Uber trip"; Val "0.0"; Val "12.25"; Val "3.0"] = inr t /\
    Sample.read_float "12.25" = Some x /\
    t_amount t = SFabs x /\
    t_isExpense t = gt0 x.
Proof.
  eexists. eexists. split; [reflexivity |]. split; [reflexivity |].
  refine ((fun H => conj (proj1 H) (proj1 (proj2 H)))
            (debit_sign_is_flipped (rt := Sample.runtime)
               (header Sample.bank) Sample.bank_roles
               [Val "15/01/2023"; Val "Uber trip"; Val "0.0"; Val "12.25"; Val "3.0"]
               _ "12.25" _ _ _ _ _));
    reflexivity.
Defined.

Lemma amount_without_a_filled_debit_witness :
  (exists x,
      Sample.read_float "20.0" = Some x /\
      resolve_amount (rt := Sample2.more_runtime) (header Sample2.credit_only)
        Sample2.credit_roles [Val "13/06/2023"; Val "Refund"; Val "0.00"; Val "20.0"]
      = inr x) /\
  resolve_amount (rt := Sample2.more_runtime) (header Sample2.credit_only)
    Sample2.credit_roles [Val "05/06/2023"; Val "Free coffee"; Val "0.00"; NaN]
  = inr float0.
Proof.
  split.
  - eexists. split; [reflexivity |].
    refine (proj1 (proj2 (amount_without_a_filled_debit (rt := Sample2.more_runtime)
                     (header Sample2.credit_only) Sample2.credit_roles
                     [Val "13/06/2023"; Val "Refund"; Val "0.00"; Val "20.0"]
                     (Scalar (Val "0.00")) float0 _ _)) "20.0" _ _ _ _ _);
      reflexivity.
  - refine (proj1 (proj2 (proj2 (amount_without_a_filled_debit (rt := Sample2.more_runtime)
                     (header Sample2.credit_only) Sample2.credit_roles
                     [Val "05/06/2023"; Val "Free coffee"; Val "0.00"; NaN]
                     (Scalar (Val "0.00")) float0 _ _))) _ _ _);
      reflexivity.
Defined.

Lemma currency_marks_are_dropped_wherever_they_stand_witness :
  strip_currency "1250" = "1250" /\ strip_currency "$1,2,50$" = "1250".
Proof.
  destruct currency_marks_are_dropped_wherever_they_stand as (_ & _ & Hfixed & _).
  split; [apply Hfixed |]; reflexivity.
Defined.

Lemma two_debit_columns_fail_every_row_witness :
  exists e,
    process_frame (rt := Sample2.more_runtime) "twice.csv" = inl e /\
    process_csv (rt := Sample2.more_runtime) "twice.csv" = Error (Sample.show_exn e).
Proof.
  apply (two_debit_columns_fail_every_row (rt := Sample2.more_runtime)
           "twice.csv" Sample2.twice_debit
           ["date"; "description"; "amount"] [] []).
  - reflexivity.
  - reflexivity.
  - discriminate.
Defined.

Lemma stdout_is_one_line_of_printable_ascii_witness :
  exists line,
    stdout (main (rt := Sample.runtime) ["process_csv.py"; "bank.csv"]) = [line] /\
    all_chars printable line = true.
Proof.
  apply (stdout_is_one_line_of_printable_ascii (rt := Sample.runtime)
           ["process_csv.py"; "bank.csv"]).
  intros ts H.
  assert (Hts : ts = Sample.bank_transactions).
  { change (process_csv (rt := Sample.runtime) "bank.csv" = Transactions ts) in H.
    change (Transactions Sample.bank_transactions = Transactions ts) in H.
    injection H as <-. reflexivity. }
  rewrite Hts. repeat constructor.
Defined.

Lemma header_without_rows_prints_empty_list_witness :
  process_csv (rt := Sample2.more_runtime) "empty.csv" = Transactions [] /\
  main (rt := Sample2.more_runtime) ["process_csv.py"; "empty.csv"]
  = {| stdout := ["[]"]; exit_status := 0 |}.
Proof.
  apply (header_without_rows_prints_empty_list (rt := Sample2.more_runtime)
           "process_csv.py" "empty.csv" [] Sample2.header_only).
  - reflexivity.
  - simpl. lia.
  - reflexivity.
Defined.
